(** * libp2p relay daemon: a model of [cmd/libp2p-relay-daemon/main.go]

    The daemon's [main] is a straight-line startup sequence over library
    calls (configuration and key loading, resource manager, connection
    manager, host construction, DHT bootstrap, ACL, relay) with two
    closures (the address factories), one routing closure and two
    goroutines (the prometheus server and [listenPprof]).

    The embedding is shallow.  Library calls are answered by an [Env]
    record (one field per call the program makes); the program itself is
    written in a small state-and-outcome monad whose state holds the trace
    of calls made so far and the shared [kaddht] variable that the routing
    closure assigns.

    Each goroutine has a trace of its own: [main]'s trace records the [go]
    statements, and the two goroutine bodies are programs in the same
    monad, run separately.  What ties them together is Go's rule that a
    panic or an [os.Exit] in any goroutine ends the process. *)

From stdpp Require Import base list strings pretty.

Open Scope string_scope.
Open Scope list_scope.
Open Scope Z_scope.

(** ** Values handed around by the program *)

(** Go's [error]; [http.ErrServerClosed] is the one sentinel the program
    compares against. *)
Inductive error : Type :=
| ErrServerClosed
| Err (msg : string).

Global Instance error_eq_dec : EqDecision error.
Proof. solve_decision. Defined.

(** Opaque library objects, told apart by a tag. *)
Inductive PrivKey := privKey (tag : nat).
Inductive PSK := psk_bytes (key : list Byte.byte).
Inductive Multiaddr := multiaddr (text : string).
Inductive StatsTraceReporter := statsTraceReporter (tag : nat).
Inductive ResourceManager := resourceManager (tag : nat).
Inductive ConnManager := connManager (lo hi grace : Z).
Inductive IpfsDHT := ipfsDHT (tag : nat).
Inductive ACLConfig := aclConfig (tag : nat).
Inductive ACLFilter := aclFilter (tag : nat).
Inductive Resources := resources (tag : nat).

Global Instance Multiaddr_eq_dec : EqDecision Multiaddr.
Proof. solve_decision. Defined.

(** [libp2phost.Host], as far as [main] looks at it: [ID()] and [Addrs()]. *)
Record Host := { host_ID : string; host_Addrs : list Multiaddr }.

(** ** Configuration ([relaydaemon.Config], the fields [main] reads) *)

Record DaemonConfig := { PromPort : Z; PprofPort : Z }.
Record NetworkConfig := { ListenAddrs : list string; AnnounceAddrs : list string }.
Record ConnMgrConfig := { ConnMgrLo : Z; ConnMgrHi : Z; ConnMgrGrace : Z }.
Record RelayV2Config := { Enabled : bool; RelayResources : Resources }.
Record Config := {
  Daemon : DaemonConfig;
  Network : NetworkConfig;
  ConnMgr : ConnMgrConfig;
  RelayV2 : RelayV2Config;
  ACL : ACLConfig
}.

(** ** Host options *)

(** The two closures passed to [libp2p.AddrsFactory], as code plus captured
    variables: the static one captures the slice [announce], the automatic
    one captures nothing.  The static one hands out the same slice at every
    call; [main] never writes to it after the closure is made, and the
    model takes it that callers do not either. *)
Inductive AddrsFactoryFn :=
| ReturnAnnounce (announce : list Multiaddr)
| FilterPublic.

Inductive SecurityTransport := TLS | Noise.

Inductive Option :=
| Identity (privk : PrivKey)
| UserAgent (ua : string)
| DisableRelay
| ListenAddrStrings (addrs : list string)
| ResourceManagerOpt (rmgr : ResourceManager)
| ForceReachabilityPublic
| EnableNATService
| Security (t : SecurityTransport)
| DefaultTransports
| PrivateNetwork (psk : PSK)
| AddrsFactory (f : AddrsFactoryFn)
| ConnectionManager (cm : ConnManager)
| Routing.

(** ** Trace of what the program does *)

Inductive Goroutine :=
| GoServeMetrics (promPort : Z)
| GoListenPprof (p : Z).

Inductive Msg :=
| MsgSwarmKeyError (e : error)
| MsgPSKDetected (fprint : list Byte.byte)
| MsgIAm (id : string)
| MsgPublicAddresses
| MsgPublicAddr (addr : Multiaddr) (id : string)
| MsgStartingRelayV2
| MsgRelayV2Running
| MsgPprofDisabled
| MsgPprofRegistering (addr : string)
| MsgPprofError (addr : string) (e : error).

Inductive Event :=
| EvLoadConfig (path : string)
| EvLoadIdentity (path : string)
| EvHttpHandle (pattern : string)
| EvGo (g : Goroutine)
| EvMustRegisterWith
| EvNewStatsTraceReporter
| EvNewResourceManager (str : StatsTraceReporter)
| EvLoadSwarmKey (path : string)
| EvPrintf (m : Msg)
| EvNewConnManager (lo hi grace : Z)
| EvLibp2pNew (opts : list Option)
| EvDhtNew (h : Host)
| EvBootstrap (d : IpfsDHT)
| EvSleep
| EvNewACL (h : Host) (c : ACLConfig)
| EvRelayV2New (h : Host) (r : Resources) (acl : ACLFilter)
| EvListenAndServe (addr : string)
| EvLogFatal (e : option error).

(** What [http.ListenAndServe] does: it keeps serving and never returns, or
    it returns an error value ([None] is Go's [nil]). *)
Inductive ServeResult :=
| KeepsServing
| ServeReturns (err : option error).

(** ** The library calls *)

Record Env := {
  (** flag values after [flag.Parse] *)
  arg_id : string;
  arg_config : string;
  arg_swarmkey : string;
  LoadConfig : string → Config + error;
  LoadIdentity : string → PrivKey + error;
  NewStatsTraceReporter : StatsTraceReporter + error;
  NewResourceManager : StatsTraceReporter → ResourceManager + error;
  (** [(psk, fprint, err)]: the caller tests [err] and [psk] separately *)
  LoadSwarmKey : string → option PSK * list Byte.byte * option error;
  (** [ma.StringCast] panics on a string that is no multiaddr *)
  StringCast : string → Multiaddr + error;
  IsPublicAddr : Multiaddr → bool;
  NewConnManager : Z → Z → Z → ConnManager + error;
  (** [libp2p.New] up to the point where it calls the routing factory *)
  NewHost : list Option → Host + error;
  dhtNew : Host → IpfsDHT + error;
  Bootstrap : IpfsDHT → option error;
  NewACL : Host → ACLConfig → ACLFilter + error;
  relayv2New : Host → Resources → ACLFilter → option error;
  ListenAndServe : string → ServeResult
}.

(** ** The monad *)

(** How a piece of code ends.  [Panicked] and [Exited] end the whole
    process, whichever goroutine they happen in: an unrecovered panic
    prints the value and exits with status 2, [os.Exit] (reached through
    [log.Fatal]) exits with the given status.  [Blocked] is code that never
    returns ([select {}], a server that keeps serving). *)
Inductive Outcome (A : Type) : Type :=
| Returned (a : A)
| Panicked (e : error)
| Exited (code : Z)
| Blocked.
Arguments Returned {A} a.
Arguments Panicked {A} e.
Arguments Exited {A} code.
Arguments Blocked {A}.

Record State := { trace : list Event; kaddht : option IpfsDHT }.

Definition M (A : Type) : Type := State → Outcome A * State.

Global Instance M_ret : MRet M := λ A a s, (Returned a, s).

Global Instance M_bind : MBind M := λ A B k m s,
  match m s with
  | (Returned a, s') => k a s'
  | (Panicked e, s') => (Panicked e, s')
  | (Exited c, s') => (Exited c, s')
  | (Blocked, s') => (Blocked, s')
  end.

Definition emit (e : Event) : M unit := λ s,
  (Returned tt, {| trace := trace s ++ [e]; kaddht := kaddht s |}).

Definition panic {A} (e : error) : M A := λ s, (Panicked e, s).
Definition exit {A} (code : Z) : M A := λ s, (Exited code, s).
Definition block {A} : M A := λ s, (Blocked, s).

Definition get_kaddht : M (option IpfsDHT) := λ s, (Returned (kaddht s), s).
Definition set_kaddht (d : option IpfsDHT) : M unit := λ s,
  (Returned tt, {| trace := trace s; kaddht := d |}).

(** A library call: recorded in the trace, answered by the environment. *)
Definition call {A} (e : Event) (answer : A) : M A := emit e;; mret answer.

(** [if err != nil { panic(err) }] *)
Definition orPanic {A} (m : M (A + error)) : M A :=
  r ← m; match r with inl a => mret a | inr err => panic err end.

(** [log.Fatal(v)]: print, then [os.Exit(1)]. *)
Definition logFatal {A} (v : option error) : M A := emit (EvLogFatal v);; exit 1.

(** [if err != nil { log.Fatal(err) }] *)
Definition orFatal {A} (m : M (A + error)) : M A :=
  r ← m; match r with inl a => mret a | inr err => logFatal (Some err) end.

(** [for _, x := range xs { body }] *)
Fixpoint forRange {A} (xs : list A) (body : A → M unit) : M unit :=
  match xs with
  | [] => mret tt
  | x :: rest => body x;; forRange rest body
  end.

Definition init : State := {| trace := []; kaddht := None |}.

(** Run a program from the initial state. *)
Definition run {A} (m : M A) : Outcome A * list Event :=
  let '(o, s) := m init in (o, trace s).

(** ** The address factories *)

(** The loop of the automatic factory: [announce] starts empty and grows
    by each candidate that [manet.IsPublicAddr] accepts. *)
Fixpoint filterPublicLoop (isPublic : Multiaddr → bool)
    (addrs announce : list Multiaddr) : list Multiaddr :=
  match addrs with
  | [] => announce
  | a :: rest =>
      filterPublicLoop isPublic rest
        (if isPublic a then announce ++ [a] else announce)
  end.

(** Calling the function that was handed to [libp2p.AddrsFactory]. *)
Definition callAddrsFactory (env : Env) (f : AddrsFactoryFn)
    (addrs : list Multiaddr) : list Multiaddr :=
  match f with
  | ReturnAnnounce announce => announce
  | FilterPublic => filterPublicLoop (IsPublicAddr env) addrs []
  end.

(** The loop that fills [announce] from [cfg.Network.AnnounceAddrs];
    [ma.StringCast] panics on a bad string. *)
Fixpoint castAnnounceLoop (env : Env) (ss : list string)
    (announce : list Multiaddr) : M (list Multiaddr) :=
  match ss with
  | [] => mret announce
  | s :: rest =>
      match StringCast env s with
      | inr e => panic e
      | inl a => castAnnounceLoop env rest (announce ++ [a])
      end
  end.

(** [if len(cfg.Network.AnnounceAddrs) > 0 { ... } else { ... }]: the
    address factory that [main] appends to [opts]. *)
Definition addrsFactoryFor (env : Env) (cfg : Config) : M AddrsFactoryFn :=
  if bool_decide (0 < length (AnnounceAddrs (Network cfg)))%nat then
    announce ← castAnnounceLoop env (AnnounceAddrs (Network cfg)) [];
    mret (ReturnAnnounce announce)
  else mret FilterPublic.

(** ** Routing closure and host construction *)

(** [newDHT]: assigns the shared [kaddht] and returns it with the error. *)
Definition newDHT (env : Env) (h : Host) : M (IpfsDHT + error) :=
  r ← call (EvDhtNew h) (dhtNew env h);
  set_kaddht (match r with inl d => Some d | inr _ => None end);;
  mret r.

Definition isRouting (o : Option) : bool :=
  match o with Routing => true | _ => false end.

(** [libp2p.New(opts...)]: the host is built, then the routing factory of
    a [Routing] option is called on it; an error of either is the error of
    [New]. *)
Definition libp2pNew (env : Env) (opts : list Option) : M (Host + error) :=
  emit (EvLibp2pNew opts);;
  match NewHost env opts with
  | inr err => mret (inr err)
  | inl h =>
      if existsb isRouting opts then
        r ← newDHT env h;
        match r with
        | inr err => mret (inr err)
        | inl _ => mret (inl h)
        end
      else mret (inl h)
  end.

Definition nilDereference : error :=
  Err "invalid memory address or nil pointer dereference".

(** ** [main] *)

(** The block "load PSK if applicable": [opts] with the private-network
    option appended when a key came back.  An error is printed; nothing
    else is done with it. *)
Definition loadPSK (env : Env) (pskPath : option string)
    (opts : list Option) : M (list Option) :=
  match pskPath with
  | Some path =>
      '(psk, fprint, err) ← call (EvLoadSwarmKey path) (LoadSwarmKey env path);
      match err with
      | Some e => emit (EvPrintf (MsgSwarmKeyError e))
      | None => mret tt
      end;;
      match psk with
      | Some k =>
          emit (EvPrintf (MsgPSKDetected fprint));;
          mret (opts ++ [PrivateNetwork k])
      | None => mret opts
      end
  | None => mret opts
  end.

(** [main], from the point where [flag.Parse] has returned: the three
    flag values are in [env].  (On a bad command line [flag.Parse] ends
    the process itself, before any of this; that run has no step of
    startup and is not among the runs below.) *)
Definition main (env : Env) : M unit :=
  let idPath := arg_id env in
  let cfgPath := arg_config env in
  (* flag.String returns a pointer, never nil *)
  let pskPath := Some (arg_swarmkey env) in
  cfg ← orPanic (call (EvLoadConfig cfgPath) (LoadConfig env cfgPath));
  privk ← orPanic (call (EvLoadIdentity idPath) (LoadIdentity env idPath));
  emit (EvHttpHandle "/metrics");;
  emit (EvGo (GoServeMetrics (PromPort (Daemon cfg))));;
  emit EvMustRegisterWith;;
  str ← orFatal (call EvNewStatsTraceReporter (NewStatsTraceReporter env));
  rmgr ← orFatal (call (EvNewResourceManager str) (NewResourceManager env str));
  let opts :=
    [ Identity privk; UserAgent "relayd/1.0"; DisableRelay;
      ListenAddrStrings (ListenAddrs (Network cfg));
      ResourceManagerOpt rmgr; ForceReachabilityPublic; EnableNATService;
      Security TLS; Security Noise; DefaultTransports ] in
  opts ← loadPSK env pskPath opts;
  f ← addrsFactoryFor env cfg;
  let opts := opts ++ [AddrsFactory f] in
  let lo := ConnMgrLo (ConnMgr cfg) in
  let hi := ConnMgrHi (ConnMgr cfg) in
  let grace := ConnMgrGrace (ConnMgr cfg) in
  cm ← orPanic (call (EvNewConnManager lo hi grace) (NewConnManager env lo hi grace));
  let opts := opts ++ [ConnectionManager cm; Routing] in
  host ← orPanic (libp2pNew env opts);
  d ← get_kaddht;
  err ← match d with
        | Some d => call (EvBootstrap d) (Bootstrap env d)
        | None => panic nilDereference
        end;
  match err with
  | Some e => panic e
  | None => mret tt
  end;;
  emit (EvPrintf (MsgIAm (host_ID host)));;
  emit (EvPrintf MsgPublicAddresses);;
  forRange (host_Addrs host)
    (λ addr, emit (EvPrintf (MsgPublicAddr addr (host_ID host))));;
  emit (EvGo (GoListenPprof (PprofPort (Daemon cfg))));;
  emit EvSleep;;
  acl ← orPanic (call (EvNewACL host (ACL cfg)) (NewACL env host (ACL cfg)));
  (if Enabled (RelayV2 cfg) then
     emit (EvPrintf MsgStartingRelayV2);;
     let res := RelayResources (RelayV2 cfg) in
     err ← call (EvRelayV2New host res acl) (relayv2New env host res acl);
     match err with
     | Some e => panic e
     | None => mret tt
     end;;
     emit (EvPrintf MsgRelayV2Running)
   else mret tt);;
  (* select {} *)
  block.

(** ** The goroutines *)

(** The anonymous function started at the top of [main]:
    [log.Fatal(http.ListenAndServe(fmt.Sprintf(":%d", port), nil))]. *)
Definition serveMetrics (env : Env) (promPort : Z) : M unit :=
  emit (EvHttpHandle "/debug/metrics/prometheus");;
  let addr := ":" +:+ pretty promPort in
  emit (EvListenAndServe addr);;
  match ListenAndServe env addr with
  | KeepsServing => block
  | ServeReturns err => logFatal err
  end.

Definition listenPprof (env : Env) (p : Z) : M unit :=
  if bool_decide (p = -1) then
    emit (EvPrintf MsgPprofDisabled)
  else
    let addr := "localhost:" +:+ pretty p in
    emit (EvPrintf (MsgPprofRegistering addr));;
    emit (EvListenAndServe addr);;
    match ListenAndServe env addr with
    | KeepsServing => block
    | ServeReturns None => mret tt
    | ServeReturns (Some ErrServerClosed) => mret tt
    | ServeReturns (Some err) =>
        emit (EvPrintf (MsgPprofError addr err));;
        panic err
    end.

Definition goroutineBody (env : Env) (g : Goroutine) : M unit :=
  match g with
  | GoServeMetrics promPort => serveMetrics env promPort
  | GoListenPprof p => listenPprof env p
  end.

(** ** Reading a run *)

Definition outcome (env : Env) : Outcome unit := (run (main env)).1.
Definition mainTrace (env : Env) : list Event := (run (main env)).2.

(** The casts of the static list, without the accumulator: the first
    failure wins. *)
Fixpoint castAll (env : Env) (ss : list string) : list Multiaddr + error :=
  match ss with
  | [] => inl []
  | s :: rest =>
      match StringCast env s with
      | inr e => inr e
      | inl a =>
          match castAll env rest with
          | inr e => inr e
          | inl l => inl (a :: l)
          end
      end
  end.

(** The factory [main] ends up with, or the panic of a bad announce
    string. *)
Definition chooseFactory (env : Env) (cfg : Config) : AddrsFactoryFn + error :=
  match AnnounceAddrs (Network cfg) with
  | [] => inl FilterPublic
  | ss =>
      match castAll env ss with
      | inl l => inl (ReturnAnnounce l)
      | inr e => inr e
      end
  end.

(** What the PSK block prints and adds, from the three values loaded. *)
Definition pskMessages (psk : option PSK) (fprint : list Byte.byte)
    (err : option error) : list Event :=
  match err with Some e => [EvPrintf (MsgSwarmKeyError e)] | None => [] end
  ++ match psk with Some _ => [EvPrintf (MsgPSKDetected fprint)] | None => [] end.

Definition pskOptions (psk : option PSK) : list Option :=
  match psk with Some k => [PrivateNetwork k] | None => [] end.

(** What [libp2p.New(opts...)] returns. *)
Definition newResult (env : Env) (opts : list Option) : Host + error :=
  match NewHost env opts with
  | inr e => inr e
  | inl h =>
      if existsb isRouting opts then
        match dhtNew env h with
        | inr e => inr e
        | inl _ => inl h
        end
      else inl h
  end.

(** The startup steps of the control flow, as they show in the trace. *)
Inductive Step :=
| StepIdentity
| StepResourceLimiter
| StepConnManager
| StepHost (opts : list Option)
| StepBootstrap (d : IpfsDHT)
| StepACL (h : Host)
| StepRelay (h : Host) (r : Resources) (acl : ACLFilter).

Definition stepOf (e : Event) : option Step :=
  match e with
  | EvLoadIdentity _ => Some StepIdentity
  | EvNewResourceManager _ => Some StepResourceLimiter
  | EvNewConnManager _ _ _ => Some StepConnManager
  | EvLibp2pNew opts => Some (StepHost opts)
  | EvBootstrap d => Some (StepBootstrap d)
  | EvNewACL h _ => Some (StepACL h)
  | EvRelayV2New h r acl => Some (StepRelay h r acl)
  | _ => None
  end.

Definition steps (tr : list Event) : list Step := omap stepOf tr.

(** Steps that come after host construction. *)
Definition afterHost (e : Event) : bool :=
  match e with
  | EvBootstrap _ | EvNewACL _ _ | EvRelayV2New _ _ _
  | EvGo (GoListenPprof _) | EvSleep => true
  | _ => false
  end.

(** ** The process *)

(** Goroutines started by a thread, in the order of their [go] statements. *)
Definition spawned (tr : list Event) : list Goroutine :=
  omap (λ e, match e with EvGo g => Some g | _ => None end) tr.

(** Whether an outcome ends the whole process. *)
Definition endsProcess {A} (o : Outcome A) : bool :=
  match o with
  | Panicked _ | Exited _ => true
  | Returned _ | Blocked => false
  end.

(** The process keeps running when [main] is parked in its [select {}] and
    no goroutine it started ends in a panic or an exit. *)
Definition keepsRunning (env : Env) : bool :=
  let '(o, tr) := run (main env) in
  match o with
  | Blocked =>
      forallb (λ g, negb (endsProcess (run (goroutineBody env g)).1)) (spawned tr)
  | _ => false
  end.

(** ** More readings of a run *)

(** The options [main] has collected when it calls [libp2p.New]. *)
Definition hostOptions (privk : PrivKey) (cfg : Config) (rmgr : ResourceManager)
    (psk : option PSK) (f : AddrsFactoryFn) (cm : ConnManager) : list Option :=
  [ Identity privk; UserAgent "relayd/1.0"; DisableRelay;
    ListenAddrStrings (ListenAddrs (Network cfg));
    ResourceManagerOpt rmgr; ForceReachabilityPublic; EnableNATService;
    Security TLS; Security Noise; DefaultTransports ]
  ++ pskOptions psk
  ++ [AddrsFactory f; ConnectionManager cm; Routing].

(** The place of a step in the startup sequence. *)
Definition stepRank (s : Step) : nat :=
  match s with
  | StepIdentity => 0
  | StepResourceLimiter => 1
  | StepConnManager => 2
  | StepHost _ => 3
  | StepBootstrap _ => 4
  | StepACL _ => 5
  | StepRelay _ _ _ => 6
  end%nat.

(** The address lines of the "Public Addresses" listing. *)
Definition printedAddr (e : Event) : option (Multiaddr * string) :=
  match e with
  | EvPrintf (MsgPublicAddr addr id) => Some (addr, id)
  | _ => None
  end.

Definition printedAddrs (tr : list Event) : list (Multiaddr * string) :=
  omap printedAddr tr.

(** The metrics goroutine leaves the process alone only while its server
    keeps serving. *)
Definition metricsServes (env : Env) (promPort : Z) : bool :=
  match ListenAndServe env (":" +:+ pretty promPort) with
  | KeepsServing => true
  | ServeReturns _ => false
  end.

(** [listenPprof] leaves the process alone when it is switched off, while
    its server keeps serving, and when the server returns [nil] or
    [ErrServerClosed]. *)
Definition pprofHarmless (env : Env) (p : Z) : bool :=
  bool_decide (p = -1)
  || match ListenAndServe env ("localhost:" +:+ pretty p) with
     | KeepsServing => true
     | ServeReturns None => true
     | ServeReturns (Some ErrServerClosed) => true
     | ServeReturns (Some (Err _)) => false
     end.

(** [env] with the error of [LoadSwarmKey] taken away: key and
    fingerprint stay as they are, every other call is answered as before. *)
Definition withoutSecretError (env : Env) : Env :=
  {| arg_id := arg_id env;
     arg_config := arg_config env;
     arg_swarmkey := arg_swarmkey env;
     LoadConfig := LoadConfig env;
     LoadIdentity := LoadIdentity env;
     NewStatsTraceReporter := NewStatsTraceReporter env;
     NewResourceManager := NewResourceManager env;
     LoadSwarmKey := λ path,
       let '(psk, fprint, _) := LoadSwarmKey env path in (psk, fprint, None);
     StringCast := StringCast env;
     IsPublicAddr := IsPublicAddr env;
     NewConnManager := NewConnManager env;
     NewHost := NewHost env;
     dhtNew := dhtNew env;
     Bootstrap := Bootstrap env;
     NewACL := NewACL env;
     relayv2New := relayv2New env;
     ListenAndServe := ListenAndServe env |}.

(** The line "error loading swarm key: ...". *)
Definition isSecretErrorLine (e : Event) : bool :=
  match e with
  | EvPrintf (MsgSwarmKeyError _) => true
  | _ => false
  end.

(** A trace without those lines. *)
Definition dropSecretErrorLines (tr : list Event) : list Event :=
  filter (λ e, isSecretErrorLine e = false) tr.

(** ** The secret loader, as the specification describes it *)

Inductive SecretFile :=
| SecretAbsent
| SecretUnreadable (e : error)
| SecretMalformed (e : error)
| SecretKey (k : PSK) (fprint : list Byte.byte).

(** Modelled from the spec: [relaydaemon.LoadSwarmKey] is not in this
    source file.  "loadNetworkSecret(path) -> (Secret, Fingerprint) |
    Error; an absent path is not an error and yields no secret". *)
Definition loadNetworkSecret (f : SecretFile)
    : option PSK * list Byte.byte * option error :=
  match f with
  | SecretAbsent => (None, [], None)
  | SecretUnreadable e => (None, [], Some e)
  | SecretMalformed e => (None, [], Some e)
  | SecretKey k fprint => (Some k, fprint, None)
  end.

(** ** Sample environments *)

Module Sample.

Definition loopback := multiaddr "/ip4/127.0.0.1/tcp/4001".
Definition private := multiaddr "/ip4/192.168.1.7/tcp/4001".
Definition linkLocal := multiaddr "/ip4/169.254.10.1/tcp/4001".
Definition public1 := multiaddr "/ip4/8.8.8.8/tcp/4001".
Definition public2 := multiaddr "/ip4/1.1.1.1/udp/4001/quic-v1".

Definition isPublic (a : Multiaddr) : bool :=
  bool_decide (a ∈ [public1; public2]).

Definition cast (s : string) : Multiaddr + error :=
  if String.prefix "/" s then inl (multiaddr s)
  else inr (Err "failed to parse multiaddr").

Definition config (announce : list string) (pprof : Z) (relay : bool) : Config :=
  {| Daemon := {| PromPort := 8888; PprofPort := pprof |};
     Network := {| ListenAddrs := ["/ip4/0.0.0.0/tcp/4001"];
                   AnnounceAddrs := announce |};
     ConnMgr := {| ConnMgrLo := 512; ConnMgrHi := 768; ConnMgrGrace := 120000000000 |};
     RelayV2 := {| Enabled := relay; RelayResources := resources 0 |};
     ACL := aclConfig 0 |}.

Definition host : Host :=
  {| host_ID := "12D3KooWSample"; host_Addrs := [public1] |}.

Definition env (cfgR : Config + error) (idR : PrivKey + error)
    (secret : SecretFile) (hostR : Host + error) (bootR : option error)
    (serve : string → ServeResult) : Env :=
  {| arg_id := "identity";
     arg_config := "";
     arg_swarmkey := "";
     LoadConfig := λ _, cfgR;
     LoadIdentity := λ _, idR;
     NewStatsTraceReporter := inl (statsTraceReporter 0);
     NewResourceManager := λ _, inl (resourceManager 0);
     LoadSwarmKey := λ _, loadNetworkSecret secret;
     StringCast := cast;
     IsPublicAddr := isPublic;
     NewConnManager := λ lo hi grace, inl (connManager lo hi grace);
     NewHost := λ _, hostR;
     dhtNew := λ _, inl (ipfsDHT 0);
     Bootstrap := λ _, bootR;
     NewACL := λ _ _, inl (aclFilter 0);
     relayv2New := λ _ _ _, None;
     ListenAndServe := serve |}.

Definition serving : string → ServeResult := λ _, KeepsServing.
Definition bindFails : string → ServeResult :=
  λ _, ServeReturns (Some (Err "listen tcp: address already in use")).

(** Everything succeeds, relay enabled, pprof on port 6060. *)
Definition good : Env :=
  env (inl (config [] 6060 true)) (inl (privKey 0)) SecretAbsent (inl host) None serving.

Definition err1 : error := Err "decoding failed".

(** The swarm key file exists and is malformed. *)
Definition malformedSecret : Env :=
  env (inl (config [] 6060 true)) (inl (privKey 0)) (SecretMalformed err1)
    (inl host) None serving.

(** The identity file exists and is malformed. *)
Definition badIdentity : Env :=
  env (inl (config [] 6060 true)) (inr err1) SecretAbsent (inl host) None serving.

Definition badConfig : Env :=
  env (inr err1) (inl (privKey 0)) SecretAbsent (inl host) None serving.

Definition hostFails : Env :=
  env (inl (config [] 6060 true)) (inl (privKey 0)) SecretAbsent (inr err1) None serving.

Definition bootstrapFails : Env :=
  env (inl (config [] 6060 true)) (inl (privKey 0)) SecretAbsent (inl host)
    (Some err1) serving.

(** Both observability ports are taken. *)
Definition portsTaken : Env :=
  env (inl (config [] 6060 true)) (inl (privKey 0)) SecretAbsent (inl host) None bindFails.

(** Static announce list, relay switched off. *)
Definition static : Env :=
  env (inl (config ["/ip4/203.0.113.9/tcp/4001"] (-1) false)) (inl (privKey 0))
    SecretAbsent (inl host) None serving.

End Sample.

(** ** More sample environments *)

Module Sample2.

(** [base] with other answers for the resource manager, the connection
    manager, the ACL and the relay ([None]: no error). *)
Definition override (base : Env) (strR : StatsTraceReporter + error)
    (rmR : ResourceManager + error) (cmR aclR relayR : option error) : Env :=
  {| arg_id := arg_id base;
     arg_config := arg_config base;
     arg_swarmkey := arg_swarmkey base;
     LoadConfig := LoadConfig base;
     LoadIdentity := LoadIdentity base;
     NewStatsTraceReporter := strR;
     NewResourceManager := λ _, rmR;
     LoadSwarmKey := LoadSwarmKey base;
     StringCast := StringCast base;
     IsPublicAddr := IsPublicAddr base;
     NewConnManager := λ lo hi grace,
       match cmR with Some e => inr e | None => NewConnManager base lo hi grace end;
     NewHost := NewHost base;
     dhtNew := dhtNew base;
     Bootstrap := Bootstrap base;
     NewACL := λ h c,
       match aclR with Some e => inr e | None => NewACL base h c end;
     relayv2New := λ h r acl,
       match relayR with Some e => Some e | None => relayv2New base h r acl end;
     ListenAndServe := ListenAndServe base |}.

Definition err2 : error := Err "cannot construct".

Definition reporterFails : Env :=
  override Sample.good (inr err2) (inl (resourceManager 0)) None None None.

Definition resourceManagerFails : Env :=
  override Sample.good (inl (statsTraceReporter 0)) (inr err2) None None None.

Definition connManagerFails : Env :=
  override Sample.good (inl (statsTraceReporter 0)) (inl (resourceManager 0))
    (Some err2) None None.

(** The ACL cannot be built; the relay is switched off. *)
Definition aclFails : Env :=
  override Sample.static (inl (statsTraceReporter 0)) (inl (resourceManager 0))
    None (Some err2) None.

Definition relayFails : Env :=
  override Sample.good (inl (statsTraceReporter 0)) (inl (resourceManager 0))
    None None (Some err2).

(** The second announce string is no multiaddr. *)
Definition badAnnounce : Env :=
  Sample.env
    (inl (Sample.config ["/ip4/203.0.113.9/tcp/4001"; "203.0.113.9:4001"; "/dns4/x"]
            6060 true))
    (inl (privKey 0)) SecretAbsent (inl Sample.host) None Sample.serving.

(** A key is loaded. *)
Definition withSecret : Env :=
  Sample.env (inl (Sample.config [] 6060 true)) (inl (privKey 0))
    (SecretKey (psk_bytes []) []) (inl Sample.host) None Sample.serving.

End Sample2.

(** ** Three sentences of the specification, as properties of a run

    The program does not have these; they are stated here to be refuted
    below, each next to what the program does instead. *)

(** The reading of the specification: when loading the secret gives an
    error, startup does not get to host construction. *)
Definition SecretErrorStopsStartup (env : Env) : Prop :=
  ∀ psk fprint e,
    EvLoadSwarmKey (arg_swarmkey env) ∈ mainTrace env →
    LoadSwarmKey env (arg_swarmkey env) = (psk, fprint, Some e) →
    ∀ opts, EvLibp2pNew opts ∉ mainTrace env.

(** The reading of the specification: a bootstrap error is reported, the
    run goes on to build the ACL, and the process is not ended. *)
Definition BootstrapFailureTolerated (env : Env) : Prop :=
  ∀ d e,
    EvBootstrap d ∈ mainTrace env →
    Bootstrap env d = Some e →
    endsProcess (outcome env) = false
    ∧ ∃ h c, EvNewACL h c ∈ mainTrace env.

(** The reading of the specification: a goroutine of [main] whose server
    fails to bind or serve does not end the process. *)
Definition ServerFailureTolerated (env : Env) : Prop :=
  ∀ g addr e,
    g ∈ spawned (mainTrace env) →
    EvListenAndServe addr ∈ (run (goroutineBody env g)).2 →
    ListenAndServe env addr = ServeReturns (Some e) →
    e ≠ ErrServerClosed →
    endsProcess (run (goroutineBody env g)).1 = false.

(** * Properties *)

(** ** The loops and blocks *)

Lemma filterPublicLoop_filter isPublic addrs announce :
  filterPublicLoop isPublic addrs announce
  = announce ++ filter (λ a, isPublic a = true) addrs.
Proof.
  revert announce. induction addrs as [|a rest IH]; intros announce; simpl.
  - by rewrite app_nil_r.
  - rewrite IH, filter_cons. destruct (isPublic a) eqn:Ha.
    + rewrite decide_True by done. by rewrite <- app_assoc.
    + rewrite decide_False by congruence. done.
Qed.

Lemma forRange_emit {A} (f : A → Event) (xs : list A) (s : State) :
  forRange xs (λ x, emit (f x)) s
  = (Returned tt, {| trace := trace s ++ (f <$> xs); kaddht := kaddht s |}).
Proof.
  revert s. induction xs as [|x rest IH]; intros s; simpl.
  - rewrite app_nil_r. by destruct s.
  - unfold mbind, M_bind. unfold emit at 1. rewrite IH. simpl.
    by rewrite <- app_assoc.
Qed.

Lemma castAnnounceLoop_castAll env ss announce s :
  castAnnounceLoop env ss announce s
  = match castAll env ss with
    | inl l => (Returned (announce ++ l), s)
    | inr e => (Panicked e, s)
    end.
Proof.
  revert announce. induction ss as [|x rest IH]; intros announce; simpl.
  - by rewrite app_nil_r.
  - destruct (StringCast env x) as [a|e]; [|done].
    rewrite IH. destruct (castAll env rest) as [l|e]; [|done].
    by rewrite <- app_assoc.
Qed.

Lemma castAll_Forall2 env ss l :
  castAll env ss = inl l → Forall2 (λ s a, StringCast env s = inl a) ss l.
Proof.
  revert l. induction ss as [|x rest IH]; intros l; simpl.
  - intros [= <-]. constructor.
  - destruct (StringCast env x) as [a|e] eqn:Hx; [|done].
    destruct (castAll env rest) as [l'|e]; [|done].
    intros [= <-]. constructor; auto.
Qed.

Lemma loadPSK_run env path opts s psk fprint err :
  LoadSwarmKey env path = (psk, fprint, err) →
  loadPSK env (Some path) opts s
  = (Returned (opts ++ pskOptions psk),
     {| trace := trace s ++ EvLoadSwarmKey path :: pskMessages psk fprint err;
        kaddht := kaddht s |}).
Proof.
  intros H. unfold loadPSK, call, mbind, M_bind, emit, mret, M_ret. simpl.
  rewrite H. unfold pskMessages, pskOptions.
  destruct err, psk; simpl; rewrite <- ?app_assoc, ?app_nil_r; done.
Qed.

Lemma addrsFactoryFor_run env cfg s :
  addrsFactoryFor env cfg s
  = match chooseFactory env cfg with
    | inl f => (Returned f, s)
    | inr e => (Panicked e, s)
    end.
Proof.
  unfold addrsFactoryFor, chooseFactory.
  destruct (AnnounceAddrs (Network cfg)) as [|x rest] eqn:Hl.
  - done.
  - rewrite bool_decide_true by (simpl; lia).
    unfold mbind, M_bind. rewrite castAnnounceLoop_castAll.
    by destruct (castAll env (x :: rest)).
Qed.

(** ** Running [main] against an arbitrary environment *)

Ltac exec_in H :=
  cbv beta iota zeta delta
    [run main init mbind M_bind mret M_ret orPanic orFatal logFatal call emit
     panic exit block get_kaddht set_kaddht libp2pNew newDHT
     trace kaddht] in H;
  cbn [app] in H.

(** One case per library answer, in program order.  Each leaf has the
    outcome and the trace of that run in [H]. *)
Ltac main_exec env H :=
  exec_in H;
  destruct (LoadConfig env (arg_config env)) as [?cfg|?e] eqn:?Hcfg; exec_in H;
  [destruct (LoadIdentity env (arg_id env)) as [?privk|?e] eqn:?Hid; exec_in H;
   [destruct (NewStatsTraceReporter env) as [?str|?e] eqn:?Hstr; exec_in H;
    [lazymatch type of H with context [NewResourceManager env ?x] =>
       destruct (NewResourceManager env x) as [?rmgr|?e] eqn:?Hrmgr end;
     exec_in H;
     [destruct (LoadSwarmKey env (arg_swarmkey env))
        as [[?psk ?fprint] ?err] eqn:?Hpsk;
      erewrite loadPSK_run in H by eassumption; exec_in H;
      rewrite addrsFactoryFor_run in H;
      lazymatch type of H with context [chooseFactory env ?c] =>
        destruct (chooseFactory env c) as [?f|?e] eqn:?Hf end;
      exec_in H;
      [lazymatch type of H with context [NewConnManager env ?a ?b ?c] =>
         destruct (NewConnManager env a b c) as [?cm|?e] eqn:?Hcm end;
       exec_in H;
       [lazymatch type of H with context [NewHost env ?o] =>
          destruct (NewHost env o) as [?h|?e] eqn:?Hhost end;
        exec_in H;
        [cbn [existsb isRouting orb] in H; rewrite !existsb_app in H;
         cbn [existsb isRouting orb] in H; rewrite ?orb_true_r in H;
         exec_in H;
         lazymatch type of H with context [dhtNew env ?x] =>
           destruct (dhtNew env x) as [?d|?e] eqn:?Hdht end;
         exec_in H;
         [lazymatch type of H with context [Bootstrap env ?x] =>
            destruct (Bootstrap env x) as [?e|] eqn:?Hboot end;
          exec_in H;
          [|lazymatch type of H with context [forRange (host_Addrs ?h) _] =>
              rewrite (forRange_emit
                         (λ addr, EvPrintf (MsgPublicAddr addr (host_ID h)))) in H
            end;
            exec_in H;
            lazymatch type of H with context [NewACL env ?x ?c] =>
              destruct (NewACL env x c) as [?acl|?e] eqn:?Hacl end;
            exec_in H;
            [lazymatch type of H with context [Enabled ?r] =>
               destruct (Enabled r) eqn:?Hen end;
             exec_in H;
             [lazymatch type of H with context [relayv2New env ?x ?r ?a] =>
                destruct (relayv2New env x r a) as [?e|] eqn:?Hrelay end;
              exec_in H|]|]]|]|]|]|]|]|]|]|];
  rewrite <- ?app_assoc in *; cbn [app] in *.

Lemma elem_of_pskMessages ev psk fprint err :
  ev ∈ pskMessages psk fprint err → ∃ m, ev = EvPrintf m.
Proof.
  unfold pskMessages. intros [H|H]%elem_of_app.
  - destruct err; [|by apply elem_of_nil in H].
    apply list_elem_of_singleton in H. eauto.
  - destruct psk; [|by apply elem_of_nil in H].
    apply list_elem_of_singleton in H. eauto.
Qed.

(** Splitting a membership in a trace into its cases; the cases where the
    event has the wrong shape are closed. *)
Ltac elem_cases H :=
  repeat first
    [ apply elem_of_nil in H; destruct H
    | apply elem_of_pskMessages in H as [? H]; try discriminate H
    | apply elem_of_cons in H as [H|H]; [try discriminate H|]
    | apply elem_of_app in H as [H|H]
    | apply list_elem_of_fmap in H as (? & H & ?); try discriminate H ].

(** Showing a membership in a trace: walk to the event. *)
Ltac find_elem :=
  solve [repeat first [ apply list_elem_of_here
                      | apply list_elem_of_further
                      | apply elem_of_app; right ]].

Lemma Forall_pskMessages (P : Event → Prop) psk fprint err :
  (∀ m, P (EvPrintf m)) → Forall P (pskMessages psk fprint err).
Proof.
  intros HP. apply Forall_forall. intros ev [m ->]%elem_of_pskMessages. apply HP.
Qed.

(** Start of a proof about all runs of [main]: name the run, split it. *)
Ltac main_cases env :=
  let o := fresh "o" in
  let tr := fresh "tr" in
  let H := fresh "Hrun" in
  unfold outcome, mainTrace in *;
  destruct (run (main env)) as [o tr] eqn:H;
  cbn [fst snd] in *;
  main_exec env H;
  injection H as <- <-.

(** Two answers to the same library call are the same answer. *)
Ltac same_answers :=
  simplify_eq;
  repeat match goal with
         | H1 : ?t = ?a, H2 : ?t = ?b |- _ =>
             first [ constr_eq a b; clear H2 | rewrite H1 in H2 ]
         end;
  simplify_eq.

(** ** Fatal startup failures *)

(** C5: a failure of configuration loading, identity loading or host
    construction panics with the error, and nothing that follows the
    failed step is done.  After a failed identity load the run consists of
    the two load calls only: no key is made up and no host is built. *)
Theorem startup_failure_is_fatal (env : Env) :
  (∀ e, LoadConfig env (arg_config env) = inr e →
     run (main env) = (Panicked e, [EvLoadConfig (arg_config env)]))
  ∧ (∀ cfg e,
       LoadConfig env (arg_config env) = inl cfg →
       LoadIdentity env (arg_id env) = inr e →
       run (main env)
       = (Panicked e, [EvLoadConfig (arg_config env); EvLoadIdentity (arg_id env)]))
  ∧ (∀ opts e,
       EvLibp2pNew opts ∈ mainTrace env →
       newResult env opts = inr e →
       outcome env = Panicked e
       ∧ Forall (λ ev, afterHost ev = false) (mainTrace env)).
Proof.
  split; [|split].
  - intros e He. unfold run, main, orPanic, call, mbind, M_bind, emit; simpl.
    by rewrite He.
  - intros cfg e Hc He.
    unfold run, main, orPanic, call, mbind, M_bind, emit; simpl.
    rewrite Hc; simpl. by rewrite He.
  - intros opts e Hin Hnew. main_cases env; elem_cases Hin; simplify_eq;
      unfold newResult in Hnew; rewrite ?Hhost in Hnew;
      cbn [existsb isRouting orb] in Hnew; rewrite ?existsb_app in Hnew;
      cbn [existsb isRouting orb] in Hnew; rewrite ?orb_true_r in Hnew;
      rewrite ?Hdht in Hnew; simplify_eq.
    all: split; [done|].
    all: repeat first [ apply Forall_nil_2 | apply Forall_cons_2; [done|]
                      | apply Forall_app_2; [by apply Forall_pskMessages|] ].
Qed.

Lemma startup_failure_is_fatal_witness :
  run (main Sample.badConfig) = (Panicked Sample.err1, [EvLoadConfig ""])
  ∧ run (main Sample.badIdentity)
    = (Panicked Sample.err1, [EvLoadConfig ""; EvLoadIdentity "identity"])
  ∧ outcome Sample.hostFails = Panicked Sample.err1
  ∧ Forall (λ ev, afterHost ev = false) (mainTrace Sample.hostFails).
Proof.
  split; [|split].
  - apply (proj1 (startup_failure_is_fatal Sample.badConfig)). reflexivity.
  - apply (proj1 (proj2 (startup_failure_is_fatal Sample.badIdentity))
             (Sample.config [] 6060 true)); reflexivity.
  - eapply (proj2 (proj2 (startup_failure_is_fatal Sample.hostFails))).
    + vm_compute. find_elem.
    + reflexivity.
Defined.

(** ** Routing bootstrap *)

(** C2, as stated, fails: with a bootstrap error the sample run panics. *)
Lemma bootstrap_failure_not_tolerated :
  ¬ BootstrapFailureTolerated Sample.bootstrapFails.
Proof.
  intros H. destruct (H (ipfsDHT 0) Sample.err1) as [Hends _].
  - vm_compute. find_elem.
  - reflexivity.
  - vm_compute in Hends. discriminate Hends.
Qed.

(** C2, amended: [main] panics with the bootstrap error; the bootstrap
    call is the last thing it does, so neither the ACL nor the relay is
    built. *)
Theorem bootstrap_failure_panics (env : Env) (d : IpfsDHT) (e : error) :
  EvBootstrap d ∈ mainTrace env →
  Bootstrap env d = Some e →
  outcome env = Panicked e
  ∧ last (mainTrace env) = Some (EvBootstrap d)
  ∧ (∀ h c, EvNewACL h c ∉ mainTrace env)
  ∧ (∀ h r acl, EvRelayV2New h r acl ∉ mainTrace env).
Proof.
  intros Hin Hboot. main_cases env; elem_cases Hin; simplify_eq.
  split; [done|]. split.
  - rewrite !last_cons, last_app. by cbn.
  - split; intros; intros Hin; elem_cases Hin.
Qed.

Lemma bootstrap_failure_panics_witness :
  outcome Sample.bootstrapFails = Panicked Sample.err1
  ∧ last (mainTrace Sample.bootstrapFails) = Some (EvBootstrap (ipfsDHT 0))
  ∧ (∀ h c, EvNewACL h c ∉ mainTrace Sample.bootstrapFails)
  ∧ (∀ h r acl, EvRelayV2New h r acl ∉ mainTrace Sample.bootstrapFails).
Proof.
  apply (bootstrap_failure_panics Sample.bootstrapFails (ipfsDHT 0) Sample.err1).
  - vm_compute. find_elem.
  - reflexivity.
Defined.

(** ** The network secret *)

(** C1, as stated, fails: with a malformed key file the loader gives an
    error and the host is built all the same. *)
Lemma secret_error_does_not_stop_startup :
  ¬ SecretErrorStopsStartup Sample.malformedSecret.
Proof.
  intros H. eapply (H None [] Sample.err1).
  - vm_compute. find_elem.
  - reflexivity.
  - vm_compute. find_elem.
Qed.

Example malformed_secret_sample :
  LoadSwarmKey Sample.malformedSecret "" = (None, [], Some Sample.err1)
  ∧ outcome Sample.malformedSecret = Blocked
  ∧ keepsRunning Sample.malformedSecret = true
  ∧ EvPrintf (MsgSwarmKeyError Sample.err1) ∈ mainTrace Sample.malformedSecret.
Proof. split_and!; try reflexivity. vm_compute. find_elem. Qed.

Example malformed_secret_options_sample :
  EvLibp2pNew
    (hostOptions (privKey 0) (Sample.config [] 6060 true) (resourceManager 0)
       None FilterPublic (connManager 512 768 120000000000))
  ∈ mainTrace Sample.malformedSecret.
Proof. vm_compute. find_elem. Qed.

Lemma elem_of_pskMessages_error e psk fprint err :
  EvPrintf (MsgSwarmKeyError e) ∈ pskMessages psk fprint err ↔ err = Some e.
Proof.
  unfold pskMessages. rewrite elem_of_app. split.
  - intros [H|H].
    + destruct err; [|by apply elem_of_nil in H].
      apply list_elem_of_singleton in H. congruence.
    + destruct psk; [|by apply elem_of_nil in H].
      apply list_elem_of_singleton in H. discriminate H.
  - intros ->. left. apply list_elem_of_here.
Qed.

Lemma elem_of_pskOptions k psk : PrivateNetwork k ∈ pskOptions psk ↔ psk = Some k.
Proof.
  unfold pskOptions. destruct psk as [k'|].
  - rewrite list_elem_of_singleton. split; congruence.
  - rewrite elem_of_nil. split; [done|discriminate].
Qed.

(** Membership in a list with the PSK part in the middle, in both
    directions; [lem] says when the element is in the PSK part. *)
Ltac psk_elem_fwd H lem :=
  repeat (apply elem_of_cons in H as [H|H]; [discriminate H|]);
  first [ by apply lem in H
        | apply elem_of_app in H as [H|H]; [by apply lem in H | elem_cases H] ].

Ltac psk_elem_bwd lem :=
  repeat apply list_elem_of_further;
  first [ by apply lem | apply elem_of_app; left; by apply lem ].

Lemma dropSecretErrorLines_cons e tr :
  dropSecretErrorLines (e :: tr)
  = if isSecretErrorLine e then dropSecretErrorLines tr
    else e :: dropSecretErrorLines tr.
Proof.
  unfold dropSecretErrorLines. rewrite filter_cons.
  by destruct (isSecretErrorLine e).
Qed.

Lemma dropSecretErrorLines_app tr1 tr2 :
  dropSecretErrorLines (tr1 ++ tr2)
  = dropSecretErrorLines tr1 ++ dropSecretErrorLines tr2.
Proof. apply filter_app. Qed.

Lemma dropSecretErrorLines_pskMessages psk fprint err :
  dropSecretErrorLines (pskMessages psk fprint err) = pskMessages psk fprint None.
Proof. unfold pskMessages. by destruct err, psk. Qed.

Lemma dropSecretErrorLines_listing id (addrs : list Multiaddr) :
  dropSecretErrorLines ((λ addr, EvPrintf (MsgPublicAddr addr id)) <$> addrs)
  = (λ addr, EvPrintf (MsgPublicAddr addr id)) <$> addrs.
Proof.
  induction addrs as [|a rest IH]; [done|].
  by rewrite !fmap_cons, dropSecretErrorLines_cons, IH.
Qed.

Lemma castAll_withoutSecretError env ss :
  castAll (withoutSecretError env) ss = castAll env ss.
Proof. induction ss as [|s rest IH]; [done|]. simpl. by rewrite IH. Qed.

Lemma chooseFactory_withoutSecretError env cfg :
  chooseFactory (withoutSecretError env) cfg = chooseFactory env cfg.
Proof.
  unfold chooseFactory. destruct (AnnounceAddrs (Network cfg)); [done|].
  by rewrite castAll_withoutSecretError.
Qed.

(** Calls on [withoutSecretError env], as calls on [env]. *)
Ltac env_norm :=
  rewrite ?chooseFactory_withoutSecretError in *;
  cbn [withoutSecretError arg_id arg_config arg_swarmkey LoadConfig LoadIdentity
       NewStatsTraceReporter NewResourceManager LoadSwarmKey StringCast
       IsPublicAddr NewConnManager NewHost dhtNew Bootstrap NewACL relayv2New
       ListenAndServe] in *.

(** The run of [main] with the loader's error taken away is the run with
    it, less the line that prints it. *)
Lemma main_without_secret_error env :
  outcome (withoutSecretError env) = outcome env
  ∧ mainTrace (withoutSecretError env) = dropSecretErrorLines (mainTrace env).
Proof.
  main_cases (withoutSecretError env); env_norm.
  all: main_cases env; cbv beta iota in *; do 8 same_answers.
  all: split; [done|].
  all: repeat first [ rewrite dropSecretErrorLines_cons; cbn [isSecretErrorLine]
                    | rewrite dropSecretErrorLines_app
                    | rewrite dropSecretErrorLines_pskMessages
                    | rewrite dropSecretErrorLines_listing ].
  all: reflexivity.
Qed.

(** C1, amended: an error from the loader is printed and that is all.
    Whatever the loader returns, [main] goes on to build the connection
    manager and the host; the private-network option is among the host
    options exactly when a key came back.  So with no key (no file, or an
    error) the host is built without it.  The run is the one [main] makes
    when the loader gives the same key and no error, with the line that
    prints the error added: same outcome, same calls with the same
    arguments, the option list of the host among them. *)
Theorem secret_error_is_only_printed (env : Env)
    (psk : option PSK) (fprint : list Byte.byte) (err : option error) :
  EvLoadSwarmKey (arg_swarmkey env) ∈ mainTrace env →
  LoadSwarmKey env (arg_swarmkey env) = (psk, fprint, err) →
  (∀ e, EvPrintf (MsgSwarmKeyError e) ∈ mainTrace env ↔ err = Some e)
  ∧ (∀ opts k, EvLibp2pNew opts ∈ mainTrace env →
       (PrivateNetwork k ∈ opts ↔ psk = Some k))
  ∧ (∀ cfg f cm,
       LoadConfig env (arg_config env) = inl cfg →
       chooseFactory env cfg = inl f →
       NewConnManager env (ConnMgrLo (ConnMgr cfg)) (ConnMgrHi (ConnMgr cfg))
         (ConnMgrGrace (ConnMgr cfg)) = inl cm →
       ∃ opts, EvLibp2pNew opts ∈ mainTrace env)
  ∧ LoadSwarmKey (withoutSecretError env) (arg_swarmkey env) = (psk, fprint, None)
  ∧ outcome (withoutSecretError env) = outcome env
  ∧ mainTrace (withoutSecretError env) = dropSecretErrorLines (mainTrace env).
Proof.
  intros Hin Hload. split; [|split; [|split; [|split]]].
  - (* the error message *)
    intros e'. main_cases env; elem_cases Hin; same_answers.
    all: split; intros Hx;
      first [ psk_elem_fwd Hx elem_of_pskMessages_error
            | psk_elem_bwd elem_of_pskMessages_error ].
  - (* the private-network option *)
    intros opts k H. main_cases env; elem_cases Hin; elem_cases H; same_answers.
    all: split; intros Hx;
      first [ psk_elem_fwd Hx elem_of_pskOptions
            | psk_elem_bwd elem_of_pskOptions ].
  - (* host construction is reached *)
    intros cfg' f' cm' Hc Hf' Hcm'.
    main_cases env; elem_cases Hin; same_answers; eexists; find_elem.
  - (* the same key, no error *)
    cbn [withoutSecretError LoadSwarmKey]. by rewrite Hload.
  - (* the same run but for the line *)
    apply main_without_secret_error.
Qed.

Lemma secret_error_is_only_printed_witness :
  (∀ e, EvPrintf (MsgSwarmKeyError e) ∈ mainTrace Sample.malformedSecret
        ↔ Some Sample.err1 = Some e)
  ∧ (∀ opts k, EvLibp2pNew opts ∈ mainTrace Sample.malformedSecret →
       (PrivateNetwork k ∈ opts ↔ None = Some k))
  ∧ (∀ cfg f cm,
       LoadConfig Sample.malformedSecret (arg_config Sample.malformedSecret) = inl cfg →
       chooseFactory Sample.malformedSecret cfg = inl f →
       NewConnManager Sample.malformedSecret (ConnMgrLo (ConnMgr cfg))
         (ConnMgrHi (ConnMgr cfg)) (ConnMgrGrace (ConnMgr cfg)) = inl cm →
       ∃ opts, EvLibp2pNew opts ∈ mainTrace Sample.malformedSecret)
  ∧ LoadSwarmKey (withoutSecretError Sample.malformedSecret)
      (arg_swarmkey Sample.malformedSecret) = (None, [], None)
  ∧ outcome (withoutSecretError Sample.malformedSecret)
    = outcome Sample.malformedSecret
  ∧ mainTrace (withoutSecretError Sample.malformedSecret)
    = dropSecretErrorLines (mainTrace Sample.malformedSecret).
Proof.
  apply (secret_error_is_only_printed Sample.malformedSecret None [] (Some Sample.err1)).
  - vm_compute. find_elem.
  - reflexivity.
Defined.

(** ** Address disclosure *)

Lemma elem_of_pskOptions_inv o psk : o ∈ pskOptions psk → ∃ k, o = PrivateNetwork k.
Proof.
  unfold pskOptions. destruct psk as [k|]; intros H.
  - apply list_elem_of_singleton in H. eauto.
  - by apply elem_of_nil in H.
Qed.

(** The address factory among the options of [libp2p.New] is the one
    chosen from the configuration. *)
Lemma main_installs_factory env cfg opts f :
  LoadConfig env (arg_config env) = inl cfg →
  EvLibp2pNew opts ∈ mainTrace env →
  AddrsFactory f ∈ opts →
  chooseFactory env cfg = inl f.
Proof.
  intros Hc Hin Hf. main_cases env; elem_cases Hin; simplify_eq.
  all: repeat (apply elem_of_cons in Hf as [Hf|Hf]; [discriminate Hf|]).
  all: apply elem_of_app in Hf as [Hf|Hf];
    [ apply elem_of_pskOptions_inv in Hf as [? Hf]; discriminate Hf
    | elem_cases Hf; by simplify_eq ].
Qed.

Lemma callAddrsFactory_automatic env addrs :
  callAddrsFactory env FilterPublic addrs
  = filter (λ a, IsPublicAddr env a = true) addrs.
Proof. unfold callAddrsFactory. by rewrite filterPublicLoop_filter. Qed.

Lemma chooseFactory_automatic env cfg f :
  AnnounceAddrs (Network cfg) = [] → chooseFactory env cfg = inl f → f = FilterPublic.
Proof. unfold chooseFactory. intros ->. congruence. Qed.

(** C3: with a non-empty [AnnounceAddrs] the address factory given to the
    host returns, for every candidate list, the same list: the configured
    strings, each cast to a multiaddr, in their order. *)
Theorem static_announce_is_fixed (env : Env) (cfg : Config)
    (opts : list Option) (f : AddrsFactoryFn) :
  LoadConfig env (arg_config env) = inl cfg →
  (0 < length (AnnounceAddrs (Network cfg)))%nat →
  EvLibp2pNew opts ∈ mainTrace env →
  AddrsFactory f ∈ opts →
  ∃ announce,
    Forall2 (λ s a, StringCast env s = inl a) (AnnounceAddrs (Network cfg)) announce
    ∧ ∀ addrs, callAddrsFactory env f addrs = announce.
Proof.
  intros Hc Hlen Hin Hf.
  pose proof (main_installs_factory env cfg opts f Hc Hin Hf) as Hch.
  unfold chooseFactory in Hch.
  destruct (AnnounceAddrs (Network cfg)) as [|s ss] eqn:Hss; [simpl in Hlen; lia|].
  destruct (castAll env (s :: ss)) as [l|e] eqn:Hl; [|discriminate Hch].
  injection Hch as <-. exists l. split.
  - by apply castAll_Forall2.
  - done.
Qed.

Lemma static_announce_is_fixed_witness :
  ∃ announce,
    Forall2 (λ s a, StringCast Sample.static s = inl a)
      ["/ip4/203.0.113.9/tcp/4001"] announce
    ∧ ∀ addrs,
        callAddrsFactory Sample.static
          (ReturnAnnounce [multiaddr "/ip4/203.0.113.9/tcp/4001"]) addrs
        = announce.
Proof.
  eapply (static_announce_is_fixed Sample.static
            (Sample.config ["/ip4/203.0.113.9/tcp/4001"] (-1) false)).
  - reflexivity.
  - simpl. lia.
  - vm_compute. find_elem.
  - find_elem.
Defined.

(** C4: with an empty [AnnounceAddrs] the address factory given to the
    host returns, for every candidate list, only candidates, and only
    such as [manet.IsPublicAddr] accepts.  So no address of a class that
    [IsPublicAddr] rejects (loopback, private, link-local) is announced. *)
Theorem automatic_announce_is_public (env : Env) (cfg : Config)
    (opts : list Option) (f : AddrsFactoryFn) :
  LoadConfig env (arg_config env) = inl cfg →
  AnnounceAddrs (Network cfg) = [] →
  EvLibp2pNew opts ∈ mainTrace env →
  AddrsFactory f ∈ opts →
  ∀ addrs,
    callAddrsFactory env f addrs ⊆ addrs
    ∧ Forall (λ a, IsPublicAddr env a = true) (callAddrsFactory env f addrs)
    ∧ ∀ rejected : Multiaddr → bool,
        (∀ a, rejected a = true → IsPublicAddr env a = false) →
        Forall (λ a, rejected a = false) (callAddrsFactory env f addrs).
Proof.
  intros Hc Hnil Hin Hf addrs.
  pose proof (main_installs_factory env cfg opts f Hc Hin Hf) as Hch.
  apply chooseFactory_automatic in Hch as ->; [|done].
  rewrite callAddrsFactory_automatic.
  assert (Hpub : Forall (λ a, IsPublicAddr env a = true)
                   (filter (λ a, IsPublicAddr env a = true) addrs)).
  { apply Forall_forall. by intros a [Ha _]%list_elem_of_filter. }
  split; [|split].
  - intros a [_ Ha]%list_elem_of_filter. done.
  - done.
  - intros rejected Hrej. eapply Forall_impl; [exact Hpub|].
    intros a Ha. simpl in Ha. destruct (rejected a) eqn:Hr; [|done].
    apply Hrej in Hr. congruence.
Qed.

Lemma automatic_announce_is_public_witness :
  let addrs := [Sample.loopback; Sample.public1; Sample.private;
                Sample.linkLocal; Sample.public2] in
  callAddrsFactory Sample.good FilterPublic addrs ⊆ addrs
  ∧ Forall (λ a, IsPublicAddr Sample.good a = true)
      (callAddrsFactory Sample.good FilterPublic addrs)
  ∧ ∀ rejected : Multiaddr → bool,
      (∀ a, rejected a = true → IsPublicAddr Sample.good a = false) →
      Forall (λ a, rejected a = false)
        (callAddrsFactory Sample.good FilterPublic addrs).
Proof.
  intros addrs.
  eapply (automatic_announce_is_public Sample.good (Sample.config [] 6060 true)).
  - reflexivity.
  - reflexivity.
  - vm_compute. find_elem.
  - find_elem.
Defined.

(** C9: with an empty [AnnounceAddrs] the address factory given to the
    host keeps the candidates' order (its result is a sublist of the
    candidate list) and applying it to its own result changes nothing. *)
Theorem automatic_announce_is_filter (env : Env) (cfg : Config)
    (opts : list Option) (f : AddrsFactoryFn) :
  LoadConfig env (arg_config env) = inl cfg →
  AnnounceAddrs (Network cfg) = [] →
  EvLibp2pNew opts ∈ mainTrace env →
  AddrsFactory f ∈ opts →
  ∀ addrs,
    callAddrsFactory env f addrs `sublist_of` addrs
    ∧ callAddrsFactory env f (callAddrsFactory env f addrs)
      = callAddrsFactory env f addrs.
Proof.
  intros Hc Hnil Hin Hf addrs.
  pose proof (main_installs_factory env cfg opts f Hc Hin Hf) as Hch.
  apply chooseFactory_automatic in Hch as ->; [|done].
  rewrite !callAddrsFactory_automatic. split.
  - apply sublist_filter.
  - induction addrs as [|a rest IH]; [done|].
    rewrite filter_cons. destruct (decide (IsPublicAddr env a = true)) as [Ha|Ha].
    + rewrite filter_cons, decide_True by done. by rewrite IH.
    + exact IH.
Qed.

Lemma automatic_announce_is_filter_witness :
  let addrs := [Sample.loopback; Sample.public1; Sample.private;
                Sample.linkLocal; Sample.public2] in
  callAddrsFactory Sample.good FilterPublic addrs `sublist_of` addrs
  ∧ callAddrsFactory Sample.good FilterPublic
      (callAddrsFactory Sample.good FilterPublic addrs)
    = callAddrsFactory Sample.good FilterPublic addrs.
Proof.
  intros addrs.
  eapply (automatic_announce_is_filter Sample.good (Sample.config [] 6060 true)).
  - reflexivity.
  - reflexivity.
  - vm_compute. find_elem.
  - find_elem.
Defined.

Example automatic_announce_sample :
  callAddrsFactory Sample.good FilterPublic
    [Sample.loopback; Sample.public1; Sample.private; Sample.linkLocal; Sample.public2]
  = [Sample.public1; Sample.public2].
Proof. reflexivity. Qed.

(** ** Relay enablement *)

(** C6: the relay is created exactly with the switch on.  When the calls
    of startup up to the ACL succeed, the ACL is built and the relay is
    created if and only if the switch is on.  In any run, a relay is
    created only with the switch on, and then on the host that
    [libp2p.New] returned, with the configured resources and the ACL
    built for that host; once the ACL is built the relay is created if
    the switch is on; with the switch off it is never created.  When its
    creation gives no error, [main] reports it running and parks. *)
Theorem relay_gated_by_switch (env : Env) (cfg : Config) :
  LoadConfig env (arg_config env) = inl cfg →
  (∀ h r acl,
     EvRelayV2New h r acl ∈ mainTrace env →
     Enabled (RelayV2 cfg) = true
     ∧ r = RelayResources (RelayV2 cfg)
     ∧ NewACL env h (ACL cfg) = inl acl
     ∧ ∃ opts, EvLibp2pNew opts ∈ mainTrace env ∧ newResult env opts = inl h)
  ∧ (∀ h acl,
       EvNewACL h (ACL cfg) ∈ mainTrace env →
       NewACL env h (ACL cfg) = inl acl →
       Enabled (RelayV2 cfg) = true →
       EvRelayV2New h (RelayResources (RelayV2 cfg)) acl ∈ mainTrace env)
  ∧ (Enabled (RelayV2 cfg) = false →
     ∀ h r acl, EvRelayV2New h r acl ∉ mainTrace env)
  ∧ (∀ h r acl,
       EvRelayV2New h r acl ∈ mainTrace env →
       relayv2New env h r acl = None →
       outcome env = Blocked ∧ EvPrintf MsgRelayV2Running ∈ mainTrace env)
  ∧ (∀ privk str rmgr psk fprint err f cm h d acl,
       LoadIdentity env (arg_id env) = inl privk →
       NewStatsTraceReporter env = inl str →
       NewResourceManager env str = inl rmgr →
       LoadSwarmKey env (arg_swarmkey env) = (psk, fprint, err) →
       chooseFactory env cfg = inl f →
       NewConnManager env (ConnMgrLo (ConnMgr cfg)) (ConnMgrHi (ConnMgr cfg))
         (ConnMgrGrace (ConnMgr cfg)) = inl cm →
       NewHost env (hostOptions privk cfg rmgr psk f cm) = inl h →
       dhtNew env h = inl d →
       Bootstrap env d = None →
       NewACL env h (ACL cfg) = inl acl →
       EvNewACL h (ACL cfg) ∈ mainTrace env
       ∧ (EvRelayV2New h (RelayResources (RelayV2 cfg)) acl ∈ mainTrace env
          ↔ Enabled (RelayV2 cfg) = true)).
Proof.
  intros Hc. split; [|split; [|split; [|split]]].
  - (* created only with the switch on, wired to host, resources and ACL *)
    intros h' r acl' Hin. main_cases env; elem_cases Hin; simplify_eq.
    all: split_and!; try done.
    all: eexists; split; [find_elem|].
    all: unfold newResult; rewrite Hhost;
      cbn [existsb isRouting orb]; rewrite !existsb_app;
      cbn [existsb isRouting orb]; rewrite ?orb_true_r;
      by rewrite Hdht.
  - (* ACL built and switch on: created *)
    intros h' acl' Hin Hacl' Hon.
    main_cases env; elem_cases Hin; same_answers; find_elem.
  - (* switch off: never created *)
    intros Hoff h' r acl' Hin. main_cases env; elem_cases Hin; same_answers.
  - (* created without error: running *)
    intros h' r acl' Hin Hnone.
    main_cases env; elem_cases Hin; same_answers.
    all: split; first [done | find_elem].
  - (* startup up to the ACL succeeds: created exactly with the switch on *)
    intros privk' str' rmgr' psk' fprint' err' f' cm' h' d' acl'
      Hi Hs Hr Hk Hfac Hcmgr Hh Hd Hb Ha.
    unfold hostOptions in *. cbn [app] in *.
    main_cases env; do 6 same_answers.
    all: split; [find_elem|]; rewrite Hen; split.
    all: first [ done | discriminate | intros _; find_elem
               | intros Hx; elem_cases Hx ].
Qed.

Lemma relay_gated_by_switch_witness :
  (EvNewACL Sample.host (aclConfig 0) ∈ mainTrace Sample.good
   ∧ EvRelayV2New Sample.host (resources 0) (aclFilter 0) ∈ mainTrace Sample.good)
  ∧ (EvNewACL Sample.host (aclConfig 0) ∈ mainTrace Sample.static
     ∧ EvRelayV2New Sample.host (resources 0) (aclFilter 0)
       ∉ mainTrace Sample.static)
  ∧ (∀ h r acl, EvRelayV2New h r acl ∉ mainTrace Sample.static).
Proof.
  split; [|split].
  - destruct (proj2 (proj2 (proj2 (proj2
                (relay_gated_by_switch Sample.good (Sample.config [] 6060 true)
                   eq_refl))))
                (privKey 0) (statsTraceReporter 0) (resourceManager 0) None []
                None FilterPublic (connManager 512 768 120000000000)
                Sample.host (ipfsDHT 0) (aclFilter 0)
                eq_refl eq_refl eq_refl eq_refl eq_refl eq_refl eq_refl
                eq_refl eq_refl eq_refl) as [Hacl Hiff].
    split; [exact Hacl|]. apply Hiff. reflexivity.
  - destruct (proj2 (proj2 (proj2 (proj2
                (relay_gated_by_switch Sample.static
                   (Sample.config ["/ip4/203.0.113.9/tcp/4001"] (-1) false)
                   eq_refl))))
                (privKey 0) (statsTraceReporter 0) (resourceManager 0) None []
                None (ReturnAnnounce [multiaddr "/ip4/203.0.113.9/tcp/4001"])
                (connManager 512 768 120000000000)
                Sample.host (ipfsDHT 0) (aclFilter 0)
                eq_refl eq_refl eq_refl eq_refl eq_refl eq_refl eq_refl
                eq_refl eq_refl eq_refl) as [Hacl Hiff].
    split; [exact Hacl|]. intros Hin. apply Hiff in Hin. discriminate Hin.
  - apply (proj1 (proj2 (proj2
             (relay_gated_by_switch Sample.static
                (Sample.config ["/ip4/203.0.113.9/tcp/4001"] (-1) false)
                eq_refl)))).
    reflexivity.
Defined.

Example relay_started_sample :
  EvRelayV2New Sample.host (resources 0) (aclFilter 0) ∈ mainTrace Sample.good.
Proof. vm_compute. find_elem. Qed.

Example relay_not_started_sample :
  outcome Sample.static = Blocked
  ∧ ∀ h r acl, EvRelayV2New h r acl ∉ mainTrace Sample.static.
Proof.
  split; [reflexivity|]. intros h r acl Hin. vm_compute in Hin. elem_cases Hin.
Qed.

(** ** Order of the startup steps *)

Lemma steps_cons e tr :
  steps (e :: tr)
  = match stepOf e with Some s => s :: steps tr | None => steps tr end.
Proof. reflexivity. Qed.

Lemma steps_app tr1 tr2 : steps (tr1 ++ tr2) = steps tr1 ++ steps tr2.
Proof. apply omap_app. Qed.

Lemma steps_pskMessages psk fprint err : steps (pskMessages psk fprint err) = [].
Proof. unfold pskMessages. by destruct err, psk. Qed.

Lemma steps_printf {A} (m : A → Msg) (xs : list A) :
  steps ((λ x, EvPrintf (m x)) <$> xs) = [].
Proof. induction xs as [|x rest IH]; [done|]. by rewrite fmap_cons, steps_cons. Qed.

Ltac steps_norm :=
  repeat first [ rewrite steps_cons; cbn [stepOf]
               | rewrite steps_app
               | rewrite steps_pskMessages
               | rewrite steps_printf ];
  cbn [app].

(** C8: when [main] reaches its [select {}], the startup steps were, in
    this order and each once: identity, resource manager, connection
    manager, host (with the address factory chosen from the configuration
    and the routing factory among its options), bootstrap of the DHT that
    the routing factory made for that host, ACL for that host, and, with
    the relay switch on, last the relay on that host with the configured
    resources and that ACL. *)
Theorem startup_order (env : Env) :
  outcome env = Blocked →
  ∃ cfg opts f h d acl,
    LoadConfig env (arg_config env) = inl cfg
    ∧ steps (mainTrace env)
      = [StepIdentity; StepResourceLimiter; StepConnManager; StepHost opts;
         StepBootstrap d; StepACL h]
        ++ (if Enabled (RelayV2 cfg)
            then [StepRelay h (RelayResources (RelayV2 cfg)) acl] else [])
    ∧ chooseFactory env cfg = inl f
    ∧ AddrsFactory f ∈ opts
    ∧ Routing ∈ opts
    ∧ NewHost env opts = inl h
    ∧ dhtNew env h = inl d
    ∧ NewACL env h (ACL cfg) = inl acl.
Proof.
  intros Hb. main_cases env; try discriminate Hb.
  all: eexists cfg, _, f, h, d, acl.
  all: split; [done|]; split; [steps_norm; by rewrite ?Hen|].
  all: split; [done|]; split; [find_elem|]; split; [find_elem|]; done.
Qed.

Lemma startup_order_witness :
  ∃ cfg opts f h d acl,
    LoadConfig Sample.good (arg_config Sample.good) = inl cfg
    ∧ steps (mainTrace Sample.good)
      = [StepIdentity; StepResourceLimiter; StepConnManager; StepHost opts;
         StepBootstrap d; StepACL h]
        ++ (if Enabled (RelayV2 cfg)
            then [StepRelay h (RelayResources (RelayV2 cfg)) acl] else [])
    ∧ chooseFactory Sample.good cfg = inl f
    ∧ AddrsFactory f ∈ opts
    ∧ Routing ∈ opts
    ∧ NewHost Sample.good opts = inl h
    ∧ dhtNew Sample.good h = inl d
    ∧ NewACL Sample.good h (ACL cfg) = inl acl.
Proof. apply (startup_order Sample.good). reflexivity. Defined.

Example startup_order_sample :
  steps (mainTrace Sample.good)
  = [StepIdentity; StepResourceLimiter; StepConnManager;
     StepHost
       [Identity (privKey 0); UserAgent "relayd/1.0"; DisableRelay;
        ListenAddrStrings ["/ip4/0.0.0.0/tcp/4001"];
        ResourceManagerOpt (resourceManager 0); ForceReachabilityPublic;
        EnableNATService; Security TLS; Security Noise; DefaultTransports;
        AddrsFactory FilterPublic;
        ConnectionManager (connManager 512 768 120000000000); Routing];
     StepBootstrap (ipfsDHT 0); StepACL Sample.host;
     StepRelay Sample.host (resources 0) (aclFilter 0)].
Proof. reflexivity. Qed.

(** ** The observability servers *)

(** C7, as stated, fails: with the metrics port taken, the metrics
    goroutine exits the process. *)
Lemma server_failure_not_tolerated : ¬ ServerFailureTolerated Sample.portsTaken.
Proof.
  intros H.
  specialize (H (GoServeMetrics 8888) ":8888"
                (Err "listen tcp: address already in use")).
  vm_compute in H. discriminate H.
  - apply list_elem_of_here.
  - find_elem.
  - reflexivity.
  - discriminate.
Qed.

(** And so does the pprof goroutine, by a panic. *)
Example pprof_failure_sample :
  run (listenPprof Sample.portsTaken 6060)
  = (Panicked (Err "listen tcp: address already in use"),
     [EvPrintf (MsgPprofRegistering "localhost:6060");
      EvListenAndServe "localhost:6060";
      EvPrintf (MsgPprofError "localhost:6060"
                  (Err "listen tcp: address already in use"))])
  ∧ outcome Sample.portsTaken = Blocked
  ∧ keepsRunning Sample.portsTaken = false.
Proof. by vm_compute. Qed.

Lemma forallb_false {A} (f : A → bool) (l : list A) (x : A) :
  x ∈ l → f x = false → forallb f l = false.
Proof.
  intros Hin Hx. induction Hin as [x l|x y l _ IH]; simpl.
  - by rewrite Hx.
  - rewrite IH; [|done]. apply andb_false_r.
Qed.

(** A goroutine of [main] that panics or exits takes the process down. *)
Lemma goroutine_ends_process env g :
  g ∈ spawned (mainTrace env) →
  endsProcess (run (goroutineBody env g)).1 = true →
  keepsRunning env = false.
Proof.
  unfold keepsRunning, mainTrace. intros Hg Hend.
  destruct (run (main env)) as [o tr]. cbn [snd] in Hg.
  destruct o; try done.
  eapply forallb_false; [exact Hg|]. simpl. by rewrite Hend.
Qed.

Ltac go_exec :=
  cbv beta iota zeta delta
    [run serveMetrics listenPprof init mbind M_bind mret M_ret logFatal emit
     panic exit block trace kaddht];
  cbn [app].

(** C7, amended: a failing observability server is logged and then ends
    the process.  The metrics goroutine passes whatever [ListenAndServe]
    returns to [log.Fatal]: exit with status 1.  [listenPprof] prints an
    error other than [ErrServerClosed] and panics with it; only [nil] and
    [ErrServerClosed] let it return.  Either way the process does not
    keep running. *)
Theorem server_failure_is_fatal (env : Env) :
  (∀ port r,
     ListenAndServe env (":" +:+ pretty port) = ServeReturns r →
     run (serveMetrics env port)
     = (Exited 1,
        [EvHttpHandle "/debug/metrics/prometheus";
         EvListenAndServe (":" +:+ pretty port); EvLogFatal r]))
  ∧ (∀ p e,
       p ≠ -1 → e ≠ ErrServerClosed →
       ListenAndServe env ("localhost:" +:+ pretty p) = ServeReturns (Some e) →
       run (listenPprof env p)
       = (Panicked e,
          [EvPrintf (MsgPprofRegistering ("localhost:" +:+ pretty p));
           EvListenAndServe ("localhost:" +:+ pretty p);
           EvPrintf (MsgPprofError ("localhost:" +:+ pretty p) e)]))
  ∧ (∀ p r,
       p ≠ -1 → r = None ∨ r = Some ErrServerClosed →
       ListenAndServe env ("localhost:" +:+ pretty p) = ServeReturns r →
       run (listenPprof env p)
       = (Returned tt,
          [EvPrintf (MsgPprofRegistering ("localhost:" +:+ pretty p));
           EvListenAndServe ("localhost:" +:+ pretty p)]))
  ∧ (∀ g addr e,
       g ∈ spawned (mainTrace env) →
       EvListenAndServe addr ∈ (run (goroutineBody env g)).2 →
       ListenAndServe env addr = ServeReturns (Some e) →
       e ≠ ErrServerClosed →
       keepsRunning env = false).
Proof.
  assert (Hmetrics : ∀ port r,
     ListenAndServe env (":" +:+ pretty port) = ServeReturns r →
     run (serveMetrics env port)
     = (Exited 1,
        [EvHttpHandle "/debug/metrics/prometheus";
         EvListenAndServe (":" +:+ pretty port); EvLogFatal r])).
  { intros port r Hr. go_exec. by rewrite Hr. }
  assert (Hpprof : ∀ p e,
     p ≠ -1 → e ≠ ErrServerClosed →
     ListenAndServe env ("localhost:" +:+ pretty p) = ServeReturns (Some e) →
     run (listenPprof env p)
     = (Panicked e,
        [EvPrintf (MsgPprofRegistering ("localhost:" +:+ pretty p));
         EvListenAndServe ("localhost:" +:+ pretty p);
         EvPrintf (MsgPprofError ("localhost:" +:+ pretty p) e)])).
  { intros p e Hp He Hr. go_exec. rewrite bool_decide_false by done.
    rewrite Hr. by destruct e. }
  split; [exact Hmetrics|]. split; [exact Hpprof|]. split.
  - intros p r Hp Hnil Hr. go_exec. rewrite bool_decide_false by done.
    rewrite Hr. by destruct Hnil as [-> | ->].
  - intros g addr e Hg Hin Hr He.
    apply (goroutine_ends_process env g Hg).
    destruct g as [port|p]; unfold goroutineBody in *.
    + destruct (ListenAndServe env (":" +:+ pretty port)) as [|r] eqn:Hport.
      * revert Hin. go_exec. rewrite Hport. cbn [snd].
        intros Hin. elem_cases Hin. simplify_eq. congruence.
      * by rewrite (Hmetrics port r Hport).
    + destruct (decide (p = -1)) as [Hp|Hp].
      * revert Hin. go_exec. rewrite bool_decide_true by done. cbn [snd].
        intros Hin. elem_cases Hin.
      * assert (addr = "localhost:" +:+ pretty p) as ->.
        { revert Hin. go_exec. rewrite bool_decide_false by done.
          destruct (ListenAndServe env ("localhost:" +:+ pretty p))
            as [|[[|msg]|]]; cbn [snd];
            intros Hin; elem_cases Hin; by simplify_eq. }
        by rewrite (Hpprof p e Hp He Hr).
Qed.

Lemma server_failure_is_fatal_witness :
  run (serveMetrics Sample.portsTaken 8888)
  = (Exited 1,
     [EvHttpHandle "/debug/metrics/prometheus"; EvListenAndServe ":8888";
      EvLogFatal (Some (Err "listen tcp: address already in use"))])
  ∧ run (listenPprof Sample.portsTaken 6060)
    = (Panicked (Err "listen tcp: address already in use"),
       [EvPrintf (MsgPprofRegistering "localhost:6060");
        EvListenAndServe "localhost:6060";
        EvPrintf (MsgPprofError "localhost:6060"
                    (Err "listen tcp: address already in use"))])
  ∧ keepsRunning Sample.portsTaken = false.
Proof.
  destruct (server_failure_is_fatal Sample.portsTaken) as (Hm & Hp & _ & Hk).
  split; [|split].
  - apply (Hm 8888). reflexivity.
  - apply (Hp 6060); [discriminate|discriminate|reflexivity].
  - apply (Hk (GoListenPprof 6060) "localhost:6060"
              (Err "listen tcp: address already in use")).
    + vm_compute. find_elem.
    + vm_compute. find_elem.
    + reflexivity.
    + discriminate.
Defined.

(** C10: [listenPprof (-1)] prints that pprof is disabled and returns,
    with no call to [ListenAndServe].  For any other port it announces and
    calls [ListenAndServe] on [localhost:<port>], and different ports give
    different addresses.  The port [main] starts it with is
    [cfg.Daemon.PprofPort]. *)
Theorem pprof_port_switch (env : Env) :
  run (listenPprof env (-1)) = (Returned tt, [EvPrintf MsgPprofDisabled])
  ∧ (∀ p, p ≠ -1 →
       ∃ o rest,
         run (listenPprof env p)
         = (o, EvPrintf (MsgPprofRegistering ("localhost:" +:+ pretty p))
               :: EvListenAndServe ("localhost:" +:+ pretty p) :: rest))
  ∧ (∀ p q : Z, "localhost:" +:+ pretty p = "localhost:" +:+ pretty q → p = q)
  ∧ (∀ cfg p,
       LoadConfig env (arg_config env) = inl cfg →
       EvGo (GoListenPprof p) ∈ mainTrace env →
       p = PprofPort (Daemon cfg)).
Proof.
  split; [reflexivity|]. split; [|split].
  - intros p Hp. go_exec. rewrite bool_decide_false by done.
    destruct (ListenAndServe env ("localhost:" +:+ pretty p)) as [|[[|msg]|]];
      eexists _, _; reflexivity.
  - intros p q H. apply (inj (String.app "localhost:")) in H.
    by apply (inj pretty) in H.
  - intros cfg p Hc Hin. main_cases env; elem_cases Hin; by simplify_eq.
Qed.

Lemma pprof_port_switch_witness :
  run (listenPprof Sample.good (-1)) = (Returned tt, [EvPrintf MsgPprofDisabled])
  ∧ ∃ o rest,
      run (listenPprof Sample.good 6060)
      = (o, EvPrintf (MsgPprofRegistering "localhost:6060")
            :: EvListenAndServe "localhost:6060" :: rest).
Proof.
  destruct (pprof_port_switch Sample.good) as (Hoff & Hon & _).
  split; [exact Hoff|]. apply (Hon 6060). discriminate.
Defined.

Example pprof_disabled_sample :
  spawned (mainTrace Sample.static) = [GoServeMetrics 8888; GoListenPprof (-1)]
  ∧ run (goroutineBody Sample.static (GoListenPprof (-1)))
    = (Returned tt, [EvPrintf MsgPprofDisabled]).
Proof. by vm_compute. Qed.

Example pprof_enabled_sample :
  run (listenPprof Sample.good 6060)
  = (Blocked,
     [EvPrintf (MsgPprofRegistering "localhost:6060");
      EvListenAndServe "localhost:6060"]).
Proof. by vm_compute. Qed.

(** * Further properties of [main] *)

(** The last event of a trace that ends in a known list. *)
Ltac last_norm :=
  repeat first [rewrite last_cons | rewrite last_app]; by cbn.

(** ** How [main] ends *)

(** [main] never returns: it panics, exits through [log.Fatal], or parks
    in its [select {}].  So the process is never ended by [main] coming
    to its end. *)
Theorem main_never_returns (env : Env) (u : unit) : outcome env ≠ Returned u.
Proof. main_cases env; discriminate. Qed.

(** The resource manager block ends in [log.Fatal]: once configuration
    and identity are loaded, a failing stats reporter or resource manager
    is logged and ends the process with status 1, and the run stops
    there, before the swarm key is looked at or any host is built.
    [main] itself calls [log.Fatal] nowhere else. *)
Theorem resource_manager_failure_exits (env : Env) :
  (∀ cfg privk e,
     LoadConfig env (arg_config env) = inl cfg →
     LoadIdentity env (arg_id env) = inl privk →
     NewStatsTraceReporter env = inr e →
     run (main env)
     = (Exited 1,
        [EvLoadConfig (arg_config env); EvLoadIdentity (arg_id env);
         EvHttpHandle "/metrics"; EvGo (GoServeMetrics (PromPort (Daemon cfg)));
         EvMustRegisterWith; EvNewStatsTraceReporter; EvLogFatal (Some e)]))
  ∧ (∀ cfg privk str e,
       LoadConfig env (arg_config env) = inl cfg →
       LoadIdentity env (arg_id env) = inl privk →
       NewStatsTraceReporter env = inl str →
       NewResourceManager env str = inr e →
       run (main env)
       = (Exited 1,
          [EvLoadConfig (arg_config env); EvLoadIdentity (arg_id env);
           EvHttpHandle "/metrics"; EvGo (GoServeMetrics (PromPort (Daemon cfg)));
           EvMustRegisterWith; EvNewStatsTraceReporter;
           EvNewResourceManager str; EvLogFatal (Some e)]))
  ∧ (∀ v, EvLogFatal v ∈ mainTrace env →
          ∃ e, v = Some e
               ∧ outcome env = Exited 1
               ∧ last (mainTrace env) = Some (EvLogFatal v)
               ∧ (NewStatsTraceReporter env = inr e
                  ∨ ∃ str, NewStatsTraceReporter env = inl str
                           ∧ NewResourceManager env str = inr e)).
Proof.
  split; [|split].
  - intros cfg' privk' e Hc Hi Hfail.
    transitivity (outcome env, mainTrace env);
      [unfold outcome, mainTrace; by destruct (run (main env))|].
    main_cases env; by same_answers.
  - intros cfg' privk' str' e Hc Hi Hs Hfail.
    transitivity (outcome env, mainTrace env);
      [unfold outcome, mainTrace; by destruct (run (main env))|].
    main_cases env; do 2 same_answers. done.
  - intros v Hin. main_cases env; elem_cases Hin; simplify_eq.
    all: eexists; split_and!; eauto.
Qed.

Lemma resource_manager_failure_exits_witness :
  run (main Sample2.reporterFails)
  = (Exited 1,
     [EvLoadConfig ""; EvLoadIdentity "identity"; EvHttpHandle "/metrics";
      EvGo (GoServeMetrics 8888); EvMustRegisterWith; EvNewStatsTraceReporter;
      EvLogFatal (Some Sample2.err2)])
  ∧ run (main Sample2.resourceManagerFails)
    = (Exited 1,
       [EvLoadConfig ""; EvLoadIdentity "identity"; EvHttpHandle "/metrics";
        EvGo (GoServeMetrics 8888); EvMustRegisterWith; EvNewStatsTraceReporter;
        EvNewResourceManager (statsTraceReporter 0);
        EvLogFatal (Some Sample2.err2)]).
Proof.
  split.
  - apply (proj1 (resource_manager_failure_exits Sample2.reporterFails)
             (Sample.config [] 6060 true) (privKey 0)); reflexivity.
  - apply (proj1 (proj2 (resource_manager_failure_exits Sample2.resourceManagerFails))
             (Sample.config [] 6060 true) (privKey 0) (statsTraceReporter 0));
      reflexivity.
Defined.

(** The connection manager gets the three configured values as they are
    ([main] checks nothing about them), and when its construction fails
    [main] panics with the error: that call is the last thing done and no
    host is built. *)
Theorem conn_manager_failure_panics (env : Env) (lo hi grace : Z) :
  EvNewConnManager lo hi grace ∈ mainTrace env →
  (∃ cfg, LoadConfig env (arg_config env) = inl cfg
          ∧ lo = ConnMgrLo (ConnMgr cfg)
          ∧ hi = ConnMgrHi (ConnMgr cfg)
          ∧ grace = ConnMgrGrace (ConnMgr cfg))
  ∧ (∀ e, NewConnManager env lo hi grace = inr e →
          outcome env = Panicked e
          ∧ last (mainTrace env) = Some (EvNewConnManager lo hi grace)
          ∧ ∀ opts, EvLibp2pNew opts ∉ mainTrace env).
Proof.
  intros Hin. split.
  - main_cases env; elem_cases Hin; simplify_eq; by eexists.
  - intros e Hfail. main_cases env; elem_cases Hin; same_answers.
    split; [done|]. split; [last_norm|].
    intros opts Hin. elem_cases Hin.
Qed.

Lemma conn_manager_failure_panics_witness :
  (∃ cfg, LoadConfig Sample2.connManagerFails (arg_config Sample2.connManagerFails)
          = inl cfg
          ∧ 512 = ConnMgrLo (ConnMgr cfg)
          ∧ 768 = ConnMgrHi (ConnMgr cfg)
          ∧ 120000000000 = ConnMgrGrace (ConnMgr cfg))
  ∧ (∀ e, NewConnManager Sample2.connManagerFails 512 768 120000000000 = inr e →
          outcome Sample2.connManagerFails = Panicked e
          ∧ last (mainTrace Sample2.connManagerFails)
            = Some (EvNewConnManager 512 768 120000000000)
          ∧ ∀ opts, EvLibp2pNew opts ∉ mainTrace Sample2.connManagerFails).
Proof.
  apply (conn_manager_failure_panics Sample2.connManagerFails 512 768 120000000000).
  vm_compute. find_elem.
Defined.

(** ** The static announce list *)

Lemma castAll_first_error env pre s post e :
  Forall (λ x, ∃ a, StringCast env x = inl a) pre →
  StringCast env s = inr e →
  castAll env (pre ++ s :: post) = inr e.
Proof.
  intros Hpre Hs. induction Hpre as [|x pre [a Ha] _ IH]; simpl.
  - by rewrite Hs.
  - by rewrite Ha, IH.
Qed.

(** A configured announce string that [ma.StringCast] rejects stops
    startup: [main] panics with the error of the first such string, after
    the swarm key was looked at and before the connection manager and the
    host are built. *)
Theorem bad_announce_string_panics (env : Env) (cfg : Config)
    (pre post : list string) (s : string) (e : error) :
  LoadConfig env (arg_config env) = inl cfg →
  EvLoadSwarmKey (arg_swarmkey env) ∈ mainTrace env →
  AnnounceAddrs (Network cfg) = pre ++ s :: post →
  Forall (λ x, ∃ a, StringCast env x = inl a) pre →
  StringCast env s = inr e →
  outcome env = Panicked e
  ∧ (∀ lo hi grace, EvNewConnManager lo hi grace ∉ mainTrace env)
  ∧ (∀ opts, EvLibp2pNew opts ∉ mainTrace env).
Proof.
  intros Hc Hin Hl Hpre Hs.
  assert (Hch : chooseFactory env cfg = inr e).
  { pose proof (castAll_first_error env pre s post e Hpre Hs) as Hcast.
    unfold chooseFactory. rewrite Hl.
    destruct (pre ++ s :: post) as [|x rest] eqn:Hlist.
    - by destruct pre.
    - by rewrite Hcast. }
  main_cases env; elem_cases Hin; same_answers.
  split; [done|]. split; intros; intros Hx; elem_cases Hx.
Qed.

Lemma bad_announce_string_panics_witness :
  outcome Sample2.badAnnounce = Panicked (Err "failed to parse multiaddr")
  ∧ (∀ lo hi grace, EvNewConnManager lo hi grace ∉ mainTrace Sample2.badAnnounce)
  ∧ (∀ opts, EvLibp2pNew opts ∉ mainTrace Sample2.badAnnounce).
Proof.
  apply (bad_announce_string_panics Sample2.badAnnounce
           (Sample.config ["/ip4/203.0.113.9/tcp/4001"; "203.0.113.9:4001"; "/dns4/x"]
              6060 true)
           ["/ip4/203.0.113.9/tcp/4001"] ["/dns4/x"] "203.0.113.9:4001").
  - reflexivity.
  - vm_compute. find_elem.
  - reflexivity.
  - constructor; [|constructor]. by eexists.
  - reflexivity.
Defined.

(** ** What the host is built from *)

(** Whenever [main] calls [libp2p.New], the options are: the identity
    that was loaded, the fixed user agent, relay client off, the
    configured listen addresses, the resource manager just built, forced
    public reachability, the NAT service, TLS and Noise, the default
    transports, the private-network option if a key came back, the
    address factory chosen from the configuration, the connection manager
    just built, and routing; in this order and nothing else. *)
Theorem host_options_wiring (env : Env) (opts : list Option) :
  EvLibp2pNew opts ∈ mainTrace env →
  ∃ cfg privk str rmgr psk fprint err f cm,
    LoadConfig env (arg_config env) = inl cfg
    ∧ LoadIdentity env (arg_id env) = inl privk
    ∧ NewStatsTraceReporter env = inl str
    ∧ NewResourceManager env str = inl rmgr
    ∧ LoadSwarmKey env (arg_swarmkey env) = (psk, fprint, err)
    ∧ chooseFactory env cfg = inl f
    ∧ NewConnManager env (ConnMgrLo (ConnMgr cfg)) (ConnMgrHi (ConnMgr cfg))
        (ConnMgrGrace (ConnMgr cfg)) = inl cm
    ∧ opts = hostOptions privk cfg rmgr psk f cm.
Proof.
  intros Hin. main_cases env; elem_cases Hin; simplify_eq.
  all: eexists cfg, privk, str, rmgr, psk, fprint, err, f, cm.
  all: by split_and!.
Qed.

Lemma host_options_wiring_witness :
  ∃ cfg privk str rmgr psk fprint err f cm,
    LoadConfig Sample2.withSecret (arg_config Sample2.withSecret) = inl cfg
    ∧ LoadIdentity Sample2.withSecret (arg_id Sample2.withSecret) = inl privk
    ∧ NewStatsTraceReporter Sample2.withSecret = inl str
    ∧ NewResourceManager Sample2.withSecret str = inl rmgr
    ∧ LoadSwarmKey Sample2.withSecret (arg_swarmkey Sample2.withSecret)
      = (psk, fprint, err)
    ∧ chooseFactory Sample2.withSecret cfg = inl f
    ∧ NewConnManager Sample2.withSecret (ConnMgrLo (ConnMgr cfg))
        (ConnMgrHi (ConnMgr cfg)) (ConnMgrGrace (ConnMgr cfg)) = inl cm
    ∧ hostOptions (privKey 0) (Sample.config [] 6060 true) (resourceManager 0)
        (Some (psk_bytes [])) FilterPublic (connManager 512 768 120000000000)
      = hostOptions privk cfg rmgr psk f cm.
Proof.
  apply (host_options_wiring Sample2.withSecret). vm_compute. find_elem.
Defined.

(** ** The startup sequence in every run *)

(** In every run, failed or not, the startup steps done so far are an
    initial part of the sequence identity, resource manager, connection
    manager, host, bootstrap, ACL, relay: the steps come in this order,
    none is skipped and none is done twice. *)
Theorem steps_are_initial_part (env : Env) :
  stepRank <$> steps (mainTrace env) = seq 0 (length (steps (mainTrace env))).
Proof. main_cases env; steps_norm; reflexivity. Qed.

(** ** Routing *)

(** The DHT that is bootstrapped is the one the routing closure made for
    the host that [libp2p.New] returned: when [libp2p.New] succeeds,
    [kaddht] is set and [Bootstrap] is called on it, and [Bootstrap] is
    called on nothing else. *)
Theorem bootstrap_on_the_new_dht (env : Env) :
  (∀ opts h, EvLibp2pNew opts ∈ mainTrace env →
             newResult env opts = inl h →
             ∃ d, dhtNew env h = inl d ∧ EvBootstrap d ∈ mainTrace env)
  ∧ (∀ d, EvBootstrap d ∈ mainTrace env →
          ∃ opts h, EvLibp2pNew opts ∈ mainTrace env
                    ∧ NewHost env opts = inl h
                    ∧ dhtNew env h = inl d).
Proof.
  split.
  - intros opts h' Hin Hnew. main_cases env; elem_cases Hin; simplify_eq.
    all: unfold newResult in Hnew; rewrite Hhost in Hnew;
      cbn [existsb isRouting orb] in Hnew; rewrite ?existsb_app in Hnew;
      cbn [existsb isRouting orb] in Hnew; rewrite ?orb_true_r in Hnew;
      rewrite ?Hdht in Hnew; simplify_eq.
    all: eexists; split; [done|find_elem].
  - intros d' Hin. main_cases env; elem_cases Hin; simplify_eq.
    all: eexists _, _; split; [find_elem|]; by split.
Qed.

Lemma bootstrap_on_the_new_dht_witness :
  ∃ d, dhtNew Sample.good Sample.host = inl d
       ∧ EvBootstrap d ∈ mainTrace Sample.good.
Proof.
  eapply (proj1 (bootstrap_on_the_new_dht Sample.good)).
  - vm_compute. find_elem.
  - reflexivity.
Defined.

(** ** The swarm key is always looked for *)

(** The guard [pskPath != nil] never fails: once the resource manager is
    built, [LoadSwarmKey] is called on the value of the [swarmkey] flag,
    whatever it is (the empty default too), and on nothing else. *)
Theorem swarm_key_always_attempted (env : Env) :
  (∀ str rmgr, EvNewResourceManager str ∈ mainTrace env →
               NewResourceManager env str = inl rmgr →
               EvLoadSwarmKey (arg_swarmkey env) ∈ mainTrace env)
  ∧ (∀ path, EvLoadSwarmKey path ∈ mainTrace env → path = arg_swarmkey env).
Proof.
  split.
  - intros str' rmgr' Hin Hok.
    main_cases env; elem_cases Hin; same_answers; find_elem.
  - intros path Hin. main_cases env; elem_cases Hin; by simplify_eq.
Qed.

Lemma swarm_key_always_attempted_witness :
  EvLoadSwarmKey "" ∈ mainTrace Sample.good.
Proof.
  apply (proj1 (swarm_key_always_attempted Sample.good)
           (statsTraceReporter 0) (resourceManager 0)).
  - vm_compute. find_elem.
  - reflexivity.
Defined.

(** ** ACL and relay failures *)

(** The ACL is built in every run whose bootstrap succeeded, with the
    relay switch on or off, on the host from [libp2p.New] with the
    configured ACL section.  When its construction fails [main] panics
    with the error: that call is the last thing done, so no relay is
    created. *)
Theorem acl_failure_panics (env : Env) :
  (∀ d, EvBootstrap d ∈ mainTrace env → Bootstrap env d = None →
        ∃ cfg opts h, LoadConfig env (arg_config env) = inl cfg
                      ∧ EvLibp2pNew opts ∈ mainTrace env
                      ∧ newResult env opts = inl h
                      ∧ EvNewACL h (ACL cfg) ∈ mainTrace env)
  ∧ (∀ h c e, EvNewACL h c ∈ mainTrace env → NewACL env h c = inr e →
              outcome env = Panicked e
              ∧ last (mainTrace env) = Some (EvNewACL h c)
              ∧ ∀ h' r acl, EvRelayV2New h' r acl ∉ mainTrace env).
Proof.
  split.
  - intros d' Hin Hok. main_cases env; elem_cases Hin; same_answers.
    all: eexists _, _, _; split; [done|]; split; [find_elem|];
      split; [|find_elem].
    all: unfold newResult; rewrite Hhost;
      cbn [existsb isRouting orb]; rewrite !existsb_app;
      cbn [existsb isRouting orb]; rewrite ?orb_true_r;
      by rewrite Hdht.
  - intros h' c e Hin Hfail. main_cases env; elem_cases Hin; same_answers.
    split; [done|]. split; [last_norm|].
    intros h'' r acl' Hx. elem_cases Hx.
Qed.

Lemma acl_failure_panics_witness :
  outcome Sample2.aclFails = Panicked Sample2.err2
  ∧ last (mainTrace Sample2.aclFails) = Some (EvNewACL Sample.host (aclConfig 0))
  ∧ ∀ h' r acl, EvRelayV2New h' r acl ∉ mainTrace Sample2.aclFails.
Proof.
  apply (proj2 (acl_failure_panics Sample2.aclFails)).
  - vm_compute. find_elem.
  - reflexivity.
Defined.

Lemma elem_of_pskMessages_inv ev psk fprint err :
  ev ∈ pskMessages psk fprint err →
  (∃ e, ev = EvPrintf (MsgSwarmKeyError e)) ∨ ev = EvPrintf (MsgPSKDetected fprint).
Proof.
  unfold pskMessages. intros [H|H]%elem_of_app.
  - destruct err; [|by apply elem_of_nil in H].
    apply list_elem_of_singleton in H. eauto.
  - destruct psk; [|by apply elem_of_nil in H].
    apply list_elem_of_singleton in H. eauto.
Qed.

(** When the creation of the relay fails, [main] panics with the error:
    that call is the last thing done and "RelayV2 is running!" is not
    printed. *)
Theorem relay_failure_panics (env : Env) (h : Host) (r : Resources)
    (acl : ACLFilter) (e : error) :
  EvRelayV2New h r acl ∈ mainTrace env →
  relayv2New env h r acl = Some e →
  outcome env = Panicked e
  ∧ last (mainTrace env) = Some (EvRelayV2New h r acl)
  ∧ EvPrintf MsgStartingRelayV2 ∈ mainTrace env
  ∧ EvPrintf MsgRelayV2Running ∉ mainTrace env.
Proof.
  intros Hin Hfail. main_cases env; elem_cases Hin; same_answers.
  split; [done|]. split; [last_norm|]. split; [find_elem|].
  intros Hx. repeat (apply elem_of_cons in Hx as [Hx|Hx]; [discriminate Hx|]).
  apply elem_of_app in Hx as [Hx|Hx]; [|elem_cases Hx].
  apply elem_of_pskMessages_inv in Hx as [[? Hx]|Hx]; discriminate Hx.
Qed.

Lemma relay_failure_panics_witness :
  outcome Sample2.relayFails = Panicked Sample2.err2
  ∧ last (mainTrace Sample2.relayFails)
    = Some (EvRelayV2New Sample.host (resources 0) (aclFilter 0))
  ∧ EvPrintf MsgStartingRelayV2 ∈ mainTrace Sample2.relayFails
  ∧ EvPrintf MsgRelayV2Running ∉ mainTrace Sample2.relayFails.
Proof.
  apply (relay_failure_panics Sample2.relayFails).
  - vm_compute. find_elem.
  - reflexivity.
Defined.

(** ** The address listing *)

Lemma printedAddrs_cons e tr :
  printedAddrs (e :: tr)
  = match printedAddr e with
    | Some x => x :: printedAddrs tr
    | None => printedAddrs tr
    end.
Proof. reflexivity. Qed.

Lemma printedAddrs_app tr1 tr2 :
  printedAddrs (tr1 ++ tr2) = printedAddrs tr1 ++ printedAddrs tr2.
Proof. apply omap_app. Qed.

Lemma printedAddrs_pskMessages psk fprint err :
  printedAddrs (pskMessages psk fprint err) = [].
Proof. unfold pskMessages. by destruct err, psk. Qed.

Lemma printedAddrs_listing id (addrs : list Multiaddr) :
  printedAddrs ((λ addr, EvPrintf (MsgPublicAddr addr id)) <$> addrs)
  = (λ addr, (addr, id)) <$> addrs.
Proof.
  induction addrs as [|a rest IH]; [done|].
  by rewrite !fmap_cons, printedAddrs_cons, IH.
Qed.

(** After a successful bootstrap [main] prints the addresses of the host,
    each once, in the order of [host.Addrs()], each with the host's ID;
    in a run that does not get that far no address is printed. *)
Theorem address_listing (env : Env) :
  (∀ d opts h, EvBootstrap d ∈ mainTrace env → Bootstrap env d = None →
               EvLibp2pNew opts ∈ mainTrace env → NewHost env opts = inl h →
               printedAddrs (mainTrace env)
               = (λ addr, (addr, host_ID h)) <$> host_Addrs h)
  ∧ ((∀ d, EvBootstrap d ∈ mainTrace env → Bootstrap env d ≠ None) →
     printedAddrs (mainTrace env) = []).
Proof.
  split.
  - intros d' opts h' Hin Hok Hnew Hhost'.
    main_cases env; elem_cases Hin; elem_cases Hnew; same_answers.
    all: repeat first [ rewrite printedAddrs_cons; cbn [printedAddr]
                      | rewrite printedAddrs_app
                      | rewrite printedAddrs_pskMessages
                      | rewrite printedAddrs_listing ].
    all: by rewrite app_nil_r.
  - intros Hno. main_cases env.
    all: repeat first [ rewrite printedAddrs_cons; cbn [printedAddr]
                      | rewrite printedAddrs_app
                      | rewrite printedAddrs_pskMessages
                      | rewrite printedAddrs_listing ].
    all: try done.
    all: exfalso; eapply Hno; [find_elem|done].
Qed.

Lemma address_listing_witness :
  printedAddrs (mainTrace Sample.good)
  = (λ addr, (addr, host_ID Sample.host)) <$> host_Addrs Sample.host.
Proof.
  eapply (proj1 (address_listing Sample.good) (ipfsDHT 0) _ Sample.host).
  - vm_compute. find_elem.
  - reflexivity.
  - vm_compute. find_elem.
  - reflexivity.
Defined.

(** ** The goroutines of [main] *)

Lemma spawned_cons e tr :
  spawned (e :: tr)
  = match e with EvGo g => g :: spawned tr | _ => spawned tr end.
Proof. by destruct e. Qed.

Lemma spawned_app tr1 tr2 : spawned (tr1 ++ tr2) = spawned tr1 ++ spawned tr2.
Proof. apply omap_app. Qed.

Lemma spawned_pskMessages psk fprint err : spawned (pskMessages psk fprint err) = [].
Proof. unfold pskMessages. by destruct err, psk. Qed.

Lemma spawned_printf {A} (m : A → Msg) (xs : list A) :
  spawned ((λ x, EvPrintf (m x)) <$> xs) = [].
Proof. induction xs as [|x rest IH]; [done|]. by rewrite fmap_cons, spawned_cons. Qed.

Ltac spawned_norm :=
  repeat first [ rewrite spawned_cons
               | rewrite spawned_app
               | rewrite spawned_pskMessages
               | rewrite spawned_printf ];
  change (spawned []) with (@nil Goroutine) in *;
  cbn [app].

(** [main] starts at most two goroutines.  The metrics server is started
    as soon as configuration and identity are loaded, on the configured
    prometheus port, before anything that can still fail later; 
    [listenPprof] is started second, on the configured pprof port, and
    only after a successful bootstrap. *)
Theorem goroutines_of_main (env : Env) :
  (spawned (mainTrace env) = []
   ↔ (∃ e, LoadConfig env (arg_config env) = inr e)
     ∨ (∃ e, LoadIdentity env (arg_id env) = inr e))
  ∧ (∀ cfg, LoadConfig env (arg_config env) = inl cfg →
            spawned (mainTrace env)
            `prefix_of` [GoServeMetrics (PromPort (Daemon cfg));
                          GoListenPprof (PprofPort (Daemon cfg))])
  ∧ (∀ p, GoListenPprof p ∈ spawned (mainTrace env)
          ↔ EvGo (GoListenPprof p) ∈ mainTrace env
            ∧ ∃ d, EvBootstrap d ∈ mainTrace env ∧ Bootstrap env d = None).
Proof.
  split; [|split].
  - main_cases env; spawned_norm; split; try discriminate; eauto.
    all: intros [[? ?]|[? ?]]; discriminate.
  - intros cfg' Hc. main_cases env; simplify_eq; spawned_norm.
    all: first [ by exists []
               | by eexists [_]
               | by eexists [_; _] ].
  - intros p. main_cases env; spawned_norm; split.
    all: try (intros Hin; elem_cases Hin; simplify_eq;
              split; first [find_elem | eexists; split; first [find_elem | done]]).
    all: intros [Hin _]; elem_cases Hin; simplify_eq; find_elem.
Qed.

Lemma goroutines_of_main_witness :
  spawned (mainTrace Sample.good)
  `prefix_of` [GoServeMetrics 8888; GoListenPprof 6060].
Proof.
  apply (proj1 (proj2 (goroutines_of_main Sample.good))
           (Sample.config [] 6060 true)).
  reflexivity.
Defined.

Example goroutines_sample :
  spawned (mainTrace Sample.badIdentity) = []
  ∧ spawned (mainTrace Sample.bootstrapFails) = [GoServeMetrics 8888]
  ∧ spawned (mainTrace Sample.good) = [GoServeMetrics 8888; GoListenPprof 6060].
Proof. by vm_compute. Qed.

(** ** When the process keeps running *)

Lemma serveMetrics_harmless env port :
  negb (endsProcess (run (serveMetrics env port)).1) = metricsServes env port.
Proof.
  unfold metricsServes. go_exec.
  by destruct (ListenAndServe env (":" +:+ pretty port)).
Qed.

Lemma listenPprof_harmless env p :
  negb (endsProcess (run (listenPprof env p)).1) = pprofHarmless env p.
Proof.
  unfold pprofHarmless. go_exec. case_bool_decide; [done|].
  by destruct (ListenAndServe env ("localhost:" +:+ pretty p)) as [|[[|msg]|]].
Qed.

(** The process keeps running exactly when [main] gets to its
    [select {}], the metrics server keeps serving, and [listenPprof] is
    switched off, keeps serving, or comes back with [nil] or
    [ErrServerClosed].  In particular a daemon whose startup went through
    still goes down when the prometheus port cannot be served. *)
Theorem process_keeps_running_iff (env : Env) :
  keepsRunning env = true
  ↔ ∃ cfg, LoadConfig env (arg_config env) = inl cfg
           ∧ outcome env = Blocked
           ∧ metricsServes env (PromPort (Daemon cfg)) = true
           ∧ pprofHarmless env (PprofPort (Daemon cfg)) = true.
Proof.
  unfold keepsRunning. main_cases env.
  all: try (split; [discriminate | intros (? & ? & ? & _); discriminate]).
  all: spawned_norm; cbn [forallb goroutineBody];
    rewrite serveMetrics_harmless, listenPprof_harmless, andb_true_r.
  all: rewrite andb_true_iff; split;
    [ intros [? ?]; by eexists | intros (? & ? & _ & ? & ?); by simplify_eq ].
Qed.

Example keeps_running_sample :
  keepsRunning Sample.good = true
  ∧ keepsRunning Sample.static = true
  ∧ keepsRunning Sample.portsTaken = false
  ∧ keepsRunning Sample.bootstrapFails = false.
Proof. by vm_compute. Qed.

(** ** The automatic address factory, as a function *)

(** The automatic factory drops no public candidate: an address is
    announced exactly when it is a candidate that [IsPublicAddr] accepts.
    It works candidate by candidate (the result for two lists put
    together is the two results put together), and so never announces
    more addresses than it was given. *)
Theorem automatic_factory_complete (env : Env) (addrs : list Multiaddr) :
  (∀ a, a ∈ callAddrsFactory env FilterPublic addrs
        ↔ a ∈ addrs ∧ IsPublicAddr env a = true)
  ∧ (∀ more, callAddrsFactory env FilterPublic (addrs ++ more)
             = callAddrsFactory env FilterPublic addrs
               ++ callAddrsFactory env FilterPublic more)
  ∧ (length (callAddrsFactory env FilterPublic addrs) ≤ length addrs)%nat.
Proof.
  split; [|split].
  - intros a. rewrite callAddrsFactory_automatic, list_elem_of_filter. tauto.
  - intros more. rewrite !callAddrsFactory_automatic. apply filter_app.
  - rewrite callAddrsFactory_automatic. apply length_filter.
Qed.

(** The automatic factory hands its candidates back unchanged exactly
    when all of them are public, and announces nothing exactly when none
    is: a host with only private or loopback addresses announces an empty
    list. *)
Theorem automatic_factory_extremes (env : Env) (addrs : list Multiaddr) :
  (callAddrsFactory env FilterPublic addrs = addrs
   ↔ Forall (λ a, IsPublicAddr env a = true) addrs)
  ∧ (callAddrsFactory env FilterPublic addrs = []
     ↔ Forall (λ a, IsPublicAddr env a = false) addrs).
Proof.
  rewrite callAddrsFactory_automatic. split.
  - induction addrs as [|a rest IH]; [done|].
    rewrite filter_cons. destruct (decide (IsPublicAddr env a = true)) as [Ha|Ha].
    + split.
      * intros [= Hrest]. constructor; [done|]. by apply IH.
      * intros [_ Hrest]%Forall_cons. f_equal. by apply IH.
    + split.
      * intros Heq. exfalso.
        pose proof (length_filter (λ a, IsPublicAddr env a = true) rest) as Hlen.
        rewrite Heq in Hlen. simpl in Hlen. lia.
      * intros [Hpub _]%Forall_cons. done.
  - induction addrs as [|a rest IH]; [done|].
    rewrite filter_cons. destruct (decide (IsPublicAddr env a = true)) as [Ha|Ha].
    + split; [discriminate|]. intros [Hpriv _]%Forall_cons. congruence.
    + rewrite IH. split.
      * intros Hrest. constructor; [|done]. by destruct (IsPublicAddr env a).
      * by intros [_ Hrest]%Forall_cons.
Qed.

Example automatic_factory_extremes_sample :
  callAddrsFactory Sample.good FilterPublic [Sample.public2; Sample.public1]
  = [Sample.public2; Sample.public1]
  ∧ callAddrsFactory Sample.good FilterPublic
      [Sample.loopback; Sample.private; Sample.linkLocal] = [].
Proof. by vm_compute. Qed.

(** ** When startup goes through *)

(** Startup has no failure of its own: when every library call it makes
    succeeds, [main] gets to its [select {}].  What [LoadSwarmKey] returns
    as error plays no part, and the relay need only succeed when it is
    switched on. *)
Theorem startup_succeeds (env : Env) (cfg : Config) (privk : PrivKey)
    (str : StatsTraceReporter) (rmgr : ResourceManager) (psk : option PSK)
    (fprint : list Byte.byte) (err : option error) (f : AddrsFactoryFn)
    (cm : ConnManager) (h : Host) (d : IpfsDHT) (acl : ACLFilter) :
  LoadConfig env (arg_config env) = inl cfg →
  LoadIdentity env (arg_id env) = inl privk →
  NewStatsTraceReporter env = inl str →
  NewResourceManager env str = inl rmgr →
  LoadSwarmKey env (arg_swarmkey env) = (psk, fprint, err) →
  chooseFactory env cfg = inl f →
  NewConnManager env (ConnMgrLo (ConnMgr cfg)) (ConnMgrHi (ConnMgr cfg))
    (ConnMgrGrace (ConnMgr cfg)) = inl cm →
  NewHost env (hostOptions privk cfg rmgr psk f cm) = inl h →
  dhtNew env h = inl d →
  Bootstrap env d = None →
  NewACL env h (ACL cfg) = inl acl →
  (Enabled (RelayV2 cfg) = true →
   relayv2New env h (RelayResources (RelayV2 cfg)) acl = None) →
  outcome env = Blocked
  ∧ steps (mainTrace env)
    = [StepIdentity; StepResourceLimiter; StepConnManager;
       StepHost (hostOptions privk cfg rmgr psk f cm); StepBootstrap d; StepACL h]
      ++ (if Enabled (RelayV2 cfg)
          then [StepRelay h (RelayResources (RelayV2 cfg)) acl] else []).
Proof.
  intros Hc Hi Hs Hr Hk Hfac Hcmgr Hh Hd Hb Ha Hrel.
  unfold hostOptions in *. cbn [app] in *.
  main_cases env; do 6 same_answers.
  all: try (specialize (Hrel eq_refl); same_answers).
  all: try (rewrite Hen in Hrel; specialize (Hrel eq_refl); same_answers).
  all: split; [done|]; steps_norm; by rewrite ?Hen.
Qed.

Lemma startup_succeeds_witness :
  outcome Sample2.withSecret = Blocked
  ∧ steps (mainTrace Sample2.withSecret)
    = [StepIdentity; StepResourceLimiter; StepConnManager;
       StepHost (hostOptions (privKey 0) (Sample.config [] 6060 true)
                   (resourceManager 0) (Some (psk_bytes [])) FilterPublic
                   (connManager 512 768 120000000000));
       StepBootstrap (ipfsDHT 0); StepACL Sample.host]
      ++ (if Enabled (RelayV2 (Sample.config [] 6060 true))
          then [StepRelay Sample.host
                  (RelayResources (RelayV2 (Sample.config [] 6060 true)))
                  (aclFilter 0)]
          else []).
Proof.
  apply (startup_succeeds Sample2.withSecret (Sample.config [] 6060 true)
           (privKey 0) (statsTraceReporter 0) (resourceManager 0)
           (Some (psk_bytes [])) [] None FilterPublic
           (connManager 512 768 120000000000) Sample.host (ipfsDHT 0)
           (aclFilter 0)); reflexivity.
Defined.
